(** * Platforms/EEBBK/s6Pkg/DeviceBuild.py

  A shallow embedding of the platform build script of the s6 device and
  the properties of its settings provider, its platform builder and its
  command-line entry point.

  Python objects are modelled by the values the script manipulates:
  [str] as [string] (a sequence of bytes; case mapping is the ASCII one),
  tuples and lists of [str] as [list string], a set of [str] as the
  list of its items in the order the process iterates them, list objects
  that are passed by reference as locations of a heap, and the calls the script
  makes into the interpreter's library ([os.path], [logging], [argparse])
  by functions that follow the library's documented behaviour. *)

From Stdlib Require Import ZArith Ascii String List Bool Lia.
From stdpp Require Import base option list gmap strings.

Local Open Scope string_scope.
Local Open Scope list_scope.

(** ** Python strings *)

Module PyStr.

(** [needle in hay]: substring test. *)
Fixpoint contains (needle hay : string) : bool :=
  String.prefix needle hay ||
  match hay with
  | EmptyString => false
  | String _ rest => contains needle rest
  end.

(** [sep.join(items)] *)
Fixpoint join (sep : string) (items : list string) : string :=
  match items with
  | [] => ""
  | [x] => x
  | x :: rest => x +:+ sep +:+ join sep rest
  end.

Definition upper_ascii (c : ascii) : ascii :=
  let n := nat_of_ascii c in
  if (97 <=? n)%nat && (n <=? 122)%nat then ascii_of_nat (n - 32) else c.

(** [s.upper()]: the letters a-z are mapped to A-Z and every other byte
    is kept. The characters outside ASCII whose upper case is plain ASCII
    give the letters F, I, L, S and T only, so the comparison of the
    result with AARCH64 is decided as the interpreter decides it. *)
Fixpoint upper (s : string) : string :=
  match s with
  | EmptyString => EmptyString
  | String c rest => String (upper_ascii c) (upper rest)
  end.

(** The one-character strings a [str] yields when it is iterated. *)
Fixpoint chars (s : string) : list string :=
  match s with
  | EmptyString => []
  | String c rest => String c EmptyString :: chars rest
  end.

Fixpoint rfind_from (c : ascii) (s : string) (i : nat) (found : Z) : Z :=
  match s with
  | EmptyString => found
  | String a rest =>
      rfind_from c rest (S i) (if Ascii.eqb a c then Z.of_nat i else found)
  end.

(** [s.rfind(c)] for a one-character [c]: the last index, or -1. *)
Definition rfind (c : ascii) (s : string) : Z := rfind_from c s 0 (-1).

(** [s[:i]] and [s[i:]] for [0 <= i]. *)
Definition take (i : nat) (s : string) : string := String.substring 0 i s.
Definition drop (i : nat) (s : string) : string :=
  String.substring i (String.length s - i) s.

Fixpoint all_char (c : ascii) (s : string) : bool :=
  match s with
  | EmptyString => true
  | String a rest => Ascii.eqb a c && all_char c rest
  end.

Definition rev (s : string) : string :=
  string_of_list_ascii (List.rev (list_ascii_of_string s)).

Fixpoint lstrip (c : ascii) (s : string) : string :=
  match s with
  | EmptyString => EmptyString
  | String a rest => if Ascii.eqb a c then lstrip c rest else s
  end.

(** [s.rstrip(c)] *)
Definition rstrip (c : ascii) (s : string) : string := rev (lstrip c (rev s)).

Definition startswith (p s : string) : bool := String.prefix p s.
Definition endswith (p s : string) : bool := String.prefix (rev p) (rev s).

(** [repr] of a list of plain file names, as an f-string renders it. *)
Definition repr_list (items : list string) : string :=
  "[" +:+ join ", " (map (fun s => "'" +:+ s +:+ "'") items) +:+ "]".

End PyStr.

(** ** [os.path] (the POSIX flavour) *)

Module OsPath.
Import PyStr.

Definition sep : ascii := "/"%char.
Definition extsep : ascii := "."%char.

(** [posixpath.join(a, b)] *)
Definition join (a b : string) : string :=
  if startswith "/" b then b
  else if String.eqb a "" || endswith "/" a then a +:+ b
  else a +:+ "/" +:+ b.

(** [posixpath.dirname(p)] *)
Definition dirname (p : string) : string :=
  let i := Z.to_nat (rfind sep p + 1) in
  let head := take i p in
  if negb (String.eqb head "") && negb (all_char sep head)
  then rstrip sep head else head.

(** The loop of [genericpath._splitext] that skips the leading dots of
    the file name: [fuel] is the number of indices left to look at. *)
Fixpoint splitext_scan (p : string) (fuel filenameIndex dotIndex : nat)
  : string * string :=
  match fuel with
  | O => (p, "")
  | S fuel' =>
      if String.eqb (String.substring filenameIndex 1 p) "."
      then splitext_scan p fuel' (S filenameIndex) dotIndex
      else (take dotIndex p, drop dotIndex p)
  end.

(** [posixpath.splitext(p)]: the pair [(root, ext)]. *)
Definition splitext (p : string) : string * string :=
  let sepIndex := rfind sep p in
  let dotIndex := rfind extsep p in
  if (sepIndex <? dotIndex)%Z then
    let filenameIndex := Z.to_nat (sepIndex + 1) in
    splitext_scan p (Z.to_nat dotIndex - filenameIndex)
                  filenameIndex (Z.to_nat dotIndex)
  else (p, "").

End OsPath.

(** ** Python values, exceptions and the state the script runs in *)

(** The objects the script compares, iterates over and stores in the build
    environment: [None], a [str], or a tuple of [str]. *)
Inductive pyval :=
| PyNone
| PyStr (s : string)
| PyTuple (items : list string).

#[global] Instance pyval_eq_dec : EqDecision pyval.
Proof. solve_decision. Defined.

(** [a == b]: objects of different types are never equal. *)
Definition py_eqb (a b : pyval) : bool := bool_decide (a = b).

(** [x in items] for a list [items]: some element equals [x]. *)
Definition py_in (x : pyval) (items : list pyval) : bool :=
  existsb (py_eqb x) items.

Inductive exn :=
| Exception (msg : string)
| FileNotFoundError (msg : string)
| NotADirectoryError (msg : string)
| PermissionError (msg : string)
| TypeError (msg : string)
| AttributeError (msg : string)
| SystemExit (code : Z)
| KeyboardInterrupt.

(** [isinstance(e, Exception)]: [SystemExit] and [KeyboardInterrupt]
    derive from [BaseException] only, so [except Exception] does not
    catch them. *)
Definition is_Exception (e : exn) : bool :=
  match e with
  | SystemExit _ | KeyboardInterrupt => false
  | _ => true
  end.

Inductive Result (A : Type) :=
| Ok (a : A)
| Raise (e : exn).
Arguments Ok {A} a.
Arguments Raise {A} e.

Inductive Level := DEBUG | INFO | ERROR | CRITICAL.

Record LogRecord := { levelname : Level; message : string }.

(** The three external entry points the script forwards to. *)
Inductive Invocable := Edk2PlatformSetup | Edk2Update | Edk2PlatformBuild.

Definition loc := positive.

(** The part of the state that code outside the script can change as
    well: the log, the list objects, the build variables and the
    attribute of the settings manager. *)
Record Store := {
  s_log : list LogRecord;
  s_heap : gmap loc (list string);
  s_env : gmap string pyval;
  s_ActualArchitectures : option (list string)
}.

(** What the script is given by its host and does not change: the file
    system as [os.path] and [os] answer about it, where listing a
    directory can fail (the path is a regular file, or may not be read);
    the current directory and the location of the script, which the
    script has resolved when it starts; the order in which the process
    iterates a set whose items were inserted in a given order; what the
    build-variable store answers for an unset variable when it is asked
    without a default; and what an external entry point does, to the
    store and as an outcome, when it is invoked with a given [sys.argv]. *)
Record Host := {
  isfile : string -> bool;
  exists_ : string -> bool;
  listdir : string -> Result (list string);
  getcwd : string;
  abspath___file__ : string;
  relpath___file__ : string;
  set_order : list string -> list string;
  GetValue_unset : pyval;
  Invoke : Invocable -> list string -> Store -> Result unit * Store
}.

(** The state a call can change. [w_heap] holds the list objects that are
    passed by reference; [w_env] is the build-variable store, the one
    object behind [shell_environment.GetBuildVars()] and the builder's
    [self.env]; [w_ActualArchitectures] is the attribute of the settings
    manager ([None] until it is assigned); [w_invoked] is the trace of
    the external entry points that were invoked, each with the [sys.argv]
    it saw. *)
Record World := {
  w_host : Host;
  w_log : list LogRecord;
  w_heap : gmap loc (list string);
  w_env : gmap string pyval;
  w_ActualArchitectures : option (list string);
  w_invoked : list (Invocable * list string)
}.

Definition set_log (f : list LogRecord -> list LogRecord) (w : World) : World :=
  {| w_host := w_host w; w_log := f (w_log w); w_heap := w_heap w;
     w_env := w_env w; w_ActualArchitectures := w_ActualArchitectures w;
     w_invoked := w_invoked w |}.

Definition set_heap (f : gmap loc (list string) -> gmap loc (list string))
  (w : World) : World :=
  {| w_host := w_host w; w_log := w_log w; w_heap := f (w_heap w);
     w_env := w_env w; w_ActualArchitectures := w_ActualArchitectures w;
     w_invoked := w_invoked w |}.

Definition set_env (f : gmap string pyval -> gmap string pyval)
  (w : World) : World :=
  {| w_host := w_host w; w_log := w_log w; w_heap := w_heap w;
     w_env := f (w_env w); w_ActualArchitectures := w_ActualArchitectures w;
     w_invoked := w_invoked w |}.

Definition set_ActualArchitectures (a : option (list string)) (w : World) : World :=
  {| w_host := w_host w; w_log := w_log w; w_heap := w_heap w;
     w_env := w_env w; w_ActualArchitectures := a;
     w_invoked := w_invoked w |}.

Definition set_invoked
  (f : list (Invocable * list string) -> list (Invocable * list string))
  (w : World) : World :=
  {| w_host := w_host w; w_log := w_log w; w_heap := w_heap w;
     w_env := w_env w; w_ActualArchitectures := w_ActualArchitectures w;
     w_invoked := f (w_invoked w) |}.

Definition store_of (w : World) : Store :=
  {| s_log := w_log w; s_heap := w_heap w; s_env := w_env w;
     s_ActualArchitectures := w_ActualArchitectures w |}.

Definition put_store (s : Store) (w : World) : World :=
  {| w_host := w_host w; w_log := s_log s; w_heap := s_heap s;
     w_env := s_env s; w_ActualArchitectures := s_ActualArchitectures s;
     w_invoked := w_invoked w |}.

(** ** The monad of calls: state passing with exceptions *)

Definition M (A : Type) : Type := World -> Result A * World.

Definition ret {A} (a : A) : M A := fun w => (Ok a, w).

Definition bind {A B} (m : M A) (k : A -> M B) : M B :=
  fun w =>
    match m w with
    | (Ok a, w') => k a w'
    | (Raise e, w') => (Raise e, w')
    end.

Definition raise {A} (e : exn) : M A := fun w => (Raise e, w).

Definition get_host : M Host := fun w => (Ok (w_host w), w).

(** The outcome of a call into the host that does not change the state. *)
Definition lift {A} (r : Result A) : M A := fun w => (r, w).

Definition modify (f : World -> World) : M unit := fun w => (Ok tt, f w).

(** [try: m except Exception as e: h e]; anything else propagates. *)
Definition try_except_Exception {A} (m : M A) (h : exn -> M A) : M A :=
  fun w =>
    match m w with
    | (Raise e, w') => if is_Exception e then h e w' else (Raise e, w')
    | r => r
    end.

Declare Scope py_scope.
Delimit Scope py_scope with py.
Notation "x <- m ;; k" := (bind m (fun x => k))
  (at level 100, m at next level, right associativity) : py_scope.
Notation "m ;;; k" := (bind m (fun _ => k))
  (at level 100, right associativity) : py_scope.
Local Open Scope py_scope.

(** [for x in items: body x], for a body that neither breaks nor returns. *)
Fixpoint for_each {A} (items : list A) (body : A -> M unit) : M unit :=
  match items with
  | [] => ret tt
  | x :: rest => body x ;;; for_each rest body
  end.

(** ** [logging] *)

Module logging.

Definition log (l : Level) (msg : string) : M unit :=
  modify (set_log (fun records => records ++ [{| levelname := l; message := msg |}])).

Definition debug := log DEBUG.
Definition error := log ERROR.
Definition critical := log CRITICAL.

(** [logging.exception(msg)]: an ERROR record (the traceback that follows
    the message is not part of the record's message). *)
Definition exception := log ERROR.

End logging.

(** ** List objects on the heap *)

Definition new_list (items : list string) : M loc :=
  fun w =>
    let l := fresh (dom (w_heap w)) in
    (Ok l, set_heap (insert l items) w).

(** Reading a list object; a reference that is no list object has no
    attribute of a list and cannot be iterated. *)
Definition list_items (l : loc) (e : exn) : M (list string) :=
  fun w =>
    match w_heap w !! l with
    | Some items => (Ok items, w)
    | None => (Raise e, w)
    end.

(** [l.copy()]: a new list object with the same items. *)
Definition list_copy (l : loc) : M loc :=
  items <- list_items l (AttributeError "object has no attribute 'copy'") ;;
  new_list items.

(** What iterating an object yields. *)
Definition py_iter (v : pyval) : M (list string) :=
  match v with
  | PyNone => raise (TypeError "'NoneType' object is not iterable")
  | PyStr s => ret (PyStr.chars s)
  | PyTuple items => ret items
  end.

(** ** Sets of [str] *)

(** A set is modelled by the list of its items in the order the process
    iterates them. The language does not fix that order: it depends on
    the hash seed of the process and on the order of insertion, so it is
    the host's answer for the items as they were inserted; an answer that
    does not enumerate the set is replaced by an enumeration. *)
Definition iterate_set (h : Host) (inserted : list string) : list string :=
  let answer := set_order h inserted in
  let items := elements (list_to_set inserted : gset string) in
  if decide (answer ≡ₚ items) then answer else items.

(** [set(items)] *)
Definition py_set (h : Host) (items : list string) : list string :=
  iterate_set h items.

(** [a - b]: the items of [a] that are not in [b], inserted in the order
    [a] is iterated. *)
Definition py_set_difference (h : Host) (a b : list string) : list string :=
  iterate_set h (filter (fun x => x ∉ b) a).

(** ** The build-variable store *)

(** Modelled from the spec: the build environment is an external key/value
    store, not owned by the script, that the script writes named values
    into and reads back; [GetValue] answers the value stored under the key,
    or the default it was given, and [SetValue] stores the value it is
    given under the key (the third argument is a comment for the log of
    the store). *)
Module VarDict.

Definition GetValue (k : string) (dflt : pyval) : M pyval :=
  fun w => (Ok (default dflt (w_env w !! k)), w).

(** [GetValue(k)] with no default given: for an unset variable the
    answer is the store's own. *)
Definition GetValue_no_default (k : string) : M pyval :=
  fun w => (Ok (default (GetValue_unset (w_host w)) (w_env w !! k)), w).

Definition SetValue (k : string) (v : pyval) (comment : string) : M unit :=
  modify (set_env (insert k v)).

End VarDict.

(** ** Common configuration *)

Module CommonPlatform.

(** A parenthesised string literal is a [str]; a tuple needs a comma. *)
Definition PackagesSupported : pyval := PyStr "s6Pkg".
Definition ArchSupported : pyval := PyStr "AARCH64".
Definition TargetsSupported : pyval := PyTuple ["DEBUG"; "RELEASE"].
Definition Scopes : pyval := PyTuple ["s6"; "gcc_aarch64_linux"; "edk2-build"].

Definition WorkspaceRoot (h : Host) : string :=
  OsPath.dirname (OsPath.dirname (abspath___file__ h)).

Definition DscPath : string := "s6Pkg/s6.dsc".

Definition PackagesPath : pyval :=
  PyTuple [ "Platforms/Lenovo";
            "Common/Mu";
            "Common/Mu_OEM_Sample";
            "Common/Mu_Tiano_Plus";
            "Features/DFCI";
            "Mu_Basecore";
            "Silicon/Arm/Mu_Tiano";
            "Silicon/Qualcomm";
            "Silicon/Silicium";
            "Silicium-ACPI/SoCs/Qualcomm" ].

End CommonPlatform.

(** Modelled from the spec: a required submodule descriptor is a relative
    path, an optional flag and a recursive flag (the descriptor class
    belongs to the external setup tool; [recursive] is true unless it is
    given). *)
Record RequiredSubmodule := {
  path : string;
  optional : bool;
  recursive : bool
}.

(** ** Configuration for update and setup *)

Module SettingsManager.

Definition GetPackagesSupported : M pyval := ret CommonPlatform.PackagesSupported.

Definition GetArchitecturesSupported : M pyval := ret CommonPlatform.ArchSupported.

Definition GetTargetsSupported : M pyval := ret CommonPlatform.TargetsSupported.

Definition GetWorkspaceRoot : M string :=
  h <- get_host ;; ret (CommonPlatform.WorkspaceRoot h).

Definition GetActiveScopes : M pyval := ret CommonPlatform.Scopes.

Definition GetName : M string := ret "s6".

Definition GetPackagesPath : M pyval := ret CommonPlatform.PackagesPath.

Definition GetRequiredSubmodules : M (list RequiredSubmodule) :=
  let required :=
    [ {| path := "Binaries"; optional := true; recursive := false |};
      {| path := "Common/Mu"; optional := true; recursive := true |};
      {| path := "Common/Mu_OEM_Sample"; optional := true; recursive := true |};
      {| path := "Common/Mu_Tiano_Plus"; optional := true; recursive := true |};
      {| path := "Features/DFCI"; optional := true; recursive := true |};
      {| path := "Mu_Basecore"; optional := true; recursive := true |};
      {| path := "Silicon/Arm/Mu_Tiano"; optional := true; recursive := true |};
      {| path := "Silicium-ACPI"; optional := true; recursive := true |} ] in
  workspace <- GetWorkspaceRoot ;;
  (for_each required (fun submodule =>
     let sub_path := OsPath.join workspace (path submodule) in
     h <- get_host ;;
     if negb (exists_ h sub_path) then
       logging.error ("Submodule path missing: " +:+ sub_path)
     else if negb (exists_ h (OsPath.join sub_path ".git")) then
       logging.error ("Submodule not initialized: " +:+ sub_path)
     else ret tt)) ;;;
  ret required.

(** The requested architectures are a list of [str]. The message lists
    the unsupported names in the order the set is iterated. *)
Definition SetArchitectures (list_of_requested_architectures : list string) : M unit :=
  h <- get_host ;;
  supported <- GetArchitecturesSupported ;;
  supported_items <- py_iter supported ;;
  let unsupported :=
    py_set_difference h (py_set h list_of_requested_architectures)
                        (py_set h supported_items) in
  if bool_decide (0 < length unsupported) then
    let errorString :=
      "Unsupported Architecture Requested: " +:+ PyStr.join " " unsupported in
    logging.critical errorString ;;;
    raise (Exception errorString)
  else
    modify (set_ActualArchitectures (Some list_of_requested_architectures)).

(** The body of the loop over the changed files: [build] is the current
    value of [build_these_packages]; a [break] ends the loop with
    [possible_packages] assigned to it. *)
Fixpoint FilterPackagesToTest_loop (files : list string)
  (possible_packages build : loc) : loc :=
  match files with
  | [] => build
  | f :: rest =>
      let second_test :=
        if PyStr.contains "platform-build-run-steps.yml" f
        then possible_packages
        else FilterPackagesToTest_loop rest possible_packages build in
      if PyStr.contains "BaseTools" f then
        if negb (py_in (let (root, ext) := OsPath.splitext f in PyTuple [root; ext])
                       [PyStr ".txt"; PyStr ".md"])
        then possible_packages
        else second_test
      else second_test
  end.

Definition FilterPackagesToTest (changedFilesList potentialPackagesList : loc) : M loc :=
  build_these_packages <- new_list [] ;;
  possible_packages <- list_copy potentialPackagesList ;;
  files <- list_items changedFilesList (TypeError "object is not iterable") ;;
  ret (FilterPackagesToTest_loop files possible_packages build_these_packages).

Definition GetPlatformDscAndConfig : M (string * gmap string pyval) :=
  h <- get_host ;;
  let dsc_path := OsPath.join (CommonPlatform.WorkspaceRoot h) CommonPlatform.DscPath in
  if negb (isfile h dsc_path) then
    logging.error ("DSC file not found at: " +:+ dsc_path) ;;;
    logging.error ("Current directory: " +:+ getcwd h) ;;;
    (if exists_ h (OsPath.dirname dsc_path) then
       contents <- lift (listdir h (OsPath.dirname dsc_path)) ;;
       logging.error ("Directory contents: " +:+ PyStr.repr_list contents)
     else ret tt) ;;;
    raise (FileNotFoundError ("DSC file missing: " +:+ dsc_path))
  else ret (CommonPlatform.DscPath, ∅).

End SettingsManager.

(** ** [argparse] *)

Module argparse.

(** An argument registered by [add_argument] with [type=str]. *)
Record Argument := {
  arg_option_strings : list string;
  arg_dest : string;
  arg_default : pyval;
  arg_help : string
}.

(** A long option registered with [action='store_true']. *)
Record Flag := {
  option_strings : list string;
  dest : string
}.

#[global] Instance Flag_eq_dec : EqDecision Flag.
Proof. solve_decision. Defined.

(** How [_parse_optional] reads one argument string: an argument that is
    no option of this parser, or an option string of a flag, possibly with
    an explicit argument after [=]. *)
Inductive parsed :=
| NotMine
| Optional (action : Flag) (explicit_arg : option string).

(** [_option_string_actions]: the option strings in the order they were
    registered, each with its action. *)
Definition option_string_actions (group : list Flag) : list (string * Flag) :=
  flat_map (fun a => map (fun o => (o, a)) (option_strings a)) group.

Definition lookup_option (table : list (string * Flag)) (o : string) : option Flag :=
  snd <$> List.find (fun p => String.eqb (fst p) o) table.

(** [s.split('=', 1)] for an [s] that contains [=]. *)
Fixpoint split_eq (s : string) : option (string * string) :=
  match s with
  | EmptyString => None
  | String c rest =>
      if Ascii.eqb c "="%char then Some (EmptyString, rest)
      else match split_eq rest with
           | Some (l, r) => Some (String c l, r)
           | None => None
           end
  end.

(** [_get_option_tuples] with [allow_abbrev]: the options an abbreviated
    option string may stand for. *)
Definition get_option_tuples (table : list (string * Flag)) (arg_string : string)
  : list (Flag * option string) :=
  match arg_string with
  | String _ (String c1 _) =>
      if Ascii.eqb c1 "-"%char then
        let (option_prefix, explicit_arg) :=
          match split_eq arg_string with
          | Some (l, r) => (l, Some r)
          | None => (arg_string, None)
          end in
        map (fun p => (snd p, explicit_arg))
            (filter (fun p => PyStr.startswith option_prefix (fst p) = true) table)
      else
        let short_option_prefix := PyStr.take 2 arg_string in
        let short_explicit_arg := PyStr.drop 2 arg_string in
        flat_map (fun p =>
                    if String.eqb (fst p) short_option_prefix
                    then [(snd p, Some short_explicit_arg)]
                    else if PyStr.startswith arg_string (fst p)
                    then [(snd p, None)]
                    else []) table
  | _ => []
  end.

(** [parser.error]: the usage message goes to the standard error stream
    and the process exits with status 2. *)
Definition error {A} (msg : string) : M A := raise (SystemExit 2).

(** [_parse_optional]. An argument that is not recognised (a positional
    argument, or an option of another parser) ends up among the remaining
    arguments either way, as the parser has no positional arguments. *)
Definition parse_optional (table : list (string * Flag)) (arg_string : string)
  : M parsed :=
  match arg_string with
  | EmptyString => ret NotMine
  | String c0 _ =>
      if negb (Ascii.eqb c0 "-"%char) then ret NotMine
      else match lookup_option table arg_string with
           | Some action => ret (Optional action None)
           | None =>
               if (String.length arg_string =? 1)%nat then ret NotMine
               else
                 match
                   match split_eq arg_string with
                   | Some (option_string, explicit_arg) =>
                       (fun a => (a, explicit_arg)) <$> lookup_option table option_string
                   | None => None
                   end
                 with
                 | Some (action, explicit_arg) =>
                     ret (Optional action (Some explicit_arg))
                 | None =>
                     match get_option_tuples table arg_string with
                     | [] => ret NotMine
                     | [(action, explicit_arg)] => ret (Optional action explicit_arg)
                     | _ => error "ambiguous option"
                     end
                 end
           end
  end.

(** The first pass of [_parse_known_args]: every argument up to a [--] is
    read by [_parse_optional]; the [--] and all that follows it are
    arguments, never options. *)
Fixpoint find_options (table : list (string * Flag)) (arg_strings : list string)
  : M (list (string * parsed)) :=
  match arg_strings with
  | [] => ret []
  | arg_string :: rest =>
      if String.eqb arg_string "--"
      then ret (map (fun s => (s, NotMine)) arg_strings)
      else
        p <- parse_optional table arg_string ;;
        ps <- find_options table rest ;;
        ret ((arg_string, p) :: ps)
  end.

(** The second pass: the options are consumed from left to right.
    [seen] is [seen_non_default_actions], [extras] the arguments left
    over. A flag takes no argument, so an explicit one is an error; a
    flag that follows another flag of its mutually exclusive group is an
    error. *)
Fixpoint consume (group : list Flag) (items : list (string * parsed))
  (seen : list Flag) (extras : list string) : M (list Flag * list string) :=
  match items with
  | [] => ret (seen, extras)
  | (arg_string, NotMine) :: rest =>
      consume group rest seen (extras ++ [arg_string])
  | (_, Optional action (Some _)) :: rest =>
      error "ignored explicit argument"
  | (_, Optional action None) :: rest =>
      if existsb (fun conflict_action =>
                    bool_decide (conflict_action ≠ action) &&
                    bool_decide (conflict_action ∈ seen)) group
      then error "not allowed with argument"
      else consume group rest (seen ++ [action]) extras
  end.

(** [parse_known_args] of a parser ([add_help=False]) whose arguments are
    the flags of one mutually exclusive group: the flags that were given,
    and the remaining arguments. *)
Definition parse_known_args (group : list Flag) (arg_strings : list string)
  : M (list Flag * list string) :=
  items <- find_options (option_string_actions group) arg_strings ;;
  consume group items [] [].

End argparse.

(** ** Configuration for the platform build *)

Module PlatformBuilder.

Definition AddCommandLineOptions (parserObj : list argparse.Argument)
  : list argparse.Argument :=
  parserObj ++
  [ {| argparse.arg_option_strings := ["-a"; "--arch"];
       argparse.arg_dest := "build_arch";
       argparse.arg_default := PyStr "AARCH64";
       argparse.arg_help := "Optional - CSV of architecture to build. AARCH64 is used for PEI and DXE and is the only valid option for this platform." |} ].

(** [args] is the parsed namespace; the script reads [args.build_arch]. *)
Definition RetrieveCommandLineOptions (build_arch : string) : M unit :=
  if negb (String.eqb (PyStr.upper build_arch) "AARCH64") then
    raise (Exception "Invalid Arch Specified.  Please see comments in DeviceBuild.py::PlatformBuilder::AddCommandLineOptions")
  else ret tt.

Definition GetWorkspaceRoot : M string :=
  h <- get_host ;; ret (CommonPlatform.WorkspaceRoot h).

(** The result is a new list; its first item is whatever object the store
    answers, the others are [str]. *)
Definition GetPackagesPath : M (list pyval) :=
  v <- VarDict.GetValue "FEATURE_CONFIG_PATH" (PyStr "") ;;
  let result := [v] in
  items <- py_iter CommonPlatform.PackagesPath ;;
  ret (fold_left (fun result a => result ++ [PyStr a]) items result).

Definition GetActiveScopes : M pyval := ret CommonPlatform.Scopes.

Definition GetName : M string := ret "s6Pkg".

Definition GetLoggingLevel (loggerType : string) : M Level := ret INFO.

Definition SetPlatformEnv : M Z :=
  logging.debug "PlatformBuilder SetPlatformEnv" ;;;
  workspace <- GetWorkspaceRoot ;;
  h <- get_host ;;
  let dsc_path := OsPath.join workspace CommonPlatform.DscPath in
  (if negb (isfile h dsc_path) then
     logging.critical ("DSC file not found: " +:+ dsc_path) ;;;
     logging.critical ("Current directory: " +:+ getcwd h) ;;;
     (if exists_ h workspace then
        contents <- lift (listdir h workspace) ;;
        logging.critical ("Workspace contents: " +:+ PyStr.repr_list contents)
      else ret tt) ;;;
     (if exists_ h (OsPath.join workspace "s6Pkg") then
        contents <- lift (listdir h (OsPath.join workspace "s6Pkg")) ;;
        logging.critical ("s6Pkg contents: " +:+ PyStr.repr_list contents)
      else ret tt) ;;;
     raise (FileNotFoundError "Critical DSC file missing")
   else ret tt) ;;;
  VarDict.SetValue "PRODUCT_NAME" (PyStr "s6") "Platform Hardcoded" ;;;
  VarDict.SetValue "ACTIVE_PLATFORM" (PyStr CommonPlatform.DscPath) "Platform Hardcoded" ;;;
  VarDict.SetValue "TARGET_ARCH" (PyStr "AARCH64") "Platform Hardcoded" ;;;
  VarDict.SetValue "TOOL_CHAIN_TAG" (PyStr "CLANGPDB") "set default to clangpdb" ;;;
  VarDict.SetValue "EMPTY_DRIVE" (PyStr "FALSE") "Default to false" ;;;
  VarDict.SetValue "RUN_TESTS" (PyStr "FALSE") "Default to false" ;;;
  VarDict.SetValue "SHUTDOWN_AFTER_RUN" (PyStr "FALSE") "Default to false" ;;;
  VarDict.SetValue "BLD_*_BUILDID_STRING" (PyStr "Unknown") "Default" ;;;
  VarDict.SetValue "BUILDREPORTING" (PyStr "TRUE") "Enabling build report" ;;;
  VarDict.SetValue "BUILDREPORT_TYPES"
    (PyStr "PCD DEPEX FLASH BUILD_FLAGS LIBRARY FIXED_ADDRESS HASH")
    "Setting build report types" ;;;
  VarDict.SetValue "BLD_*_MEMORY_PROTECTION" (PyStr "TRUE") "Default" ;;;
  VarDict.SetValue "BLD_*_SHIP_MODE" (PyStr "FALSE") "Default" ;;;
  fd_base <- VarDict.GetValue_no_default "FD_BASE" ;;
  VarDict.SetValue "BLD_*_FD_BASE" fd_base "Default" ;;;
  fd_size <- VarDict.GetValue_no_default "FD_SIZE" ;;
  VarDict.SetValue "BLD_*_FD_SIZE" fd_size "Default" ;;;
  fd_blocks <- VarDict.GetValue_no_default "FD_BLOCKS" ;;
  VarDict.SetValue "BLD_*_FD_BLOCKS" fd_blocks "Default" ;;;
  ret 0%Z.

Definition PlatformPreBuild : M Z := ret 0%Z.
Definition PlatformPostBuild : M Z := ret 0%Z.
Definition FlashRomImage : M Z := ret 0%Z.

End PlatformBuilder.

(** ** The command-line entry point *)

Module Main.

Definition parse_group : list argparse.Flag :=
  [ {| argparse.option_strings := ["--update"; "--UPDATE"]; argparse.dest := "update" |};
    {| argparse.option_strings := ["--setup"; "--SETUP"]; argparse.dest := "setup" |} ].

(** [args.<dest>] of a [store_true] flag: whether the flag was given. *)
Definition flag_given (d : string) (given : list argparse.Flag) : bool :=
  existsb (fun a => String.eqb (argparse.dest a) d) given.

(** Calling [X().Invoke()] with [sys.argv] set to [argv]: the call is
    put on the trace and the entry point runs on the store. *)
Definition invoke (x : Invocable) (argv : list string) : M unit :=
  fun w =>
    let w1 := set_invoked (fun t => t ++ [(x, argv)]) w in
    let (r, s) := Invoke (w_host w) x argv (store_of w1) in
    (r, put_store s w1).

Definition sys_exit {A} (code : Z) : M A := raise (SystemExit code).

(** The body under [if __name__ == "__main__"], run with the command-line
    arguments [sys.argv[1:]]. Setting up the log format changes nothing
    that is modelled. *)
Definition main (argv : list string) : M unit :=
  h <- get_host ;;
  let SCRIPT_PATH := relpath___file__ h in
  parsed <- argparse.parse_known_args parse_group argv ;;
  let (args, remaining) := parsed : list argparse.Flag * list string in
  let new_args := ["stuart"; "-c"; SCRIPT_PATH] in
  let new_args := new_args ++ remaining in
  if flag_given "setup" args then
    try_except_Exception (invoke Edk2PlatformSetup new_args)
      (fun e => logging.exception "Setup failed with exception" ;;; sys_exit 1)
  else if flag_given "update" args then
    try_except_Exception (invoke Edk2Update new_args)
      (fun e => logging.exception "Update failed with exception" ;;; sys_exit 1)
  else
    try_except_Exception (invoke Edk2PlatformBuild new_args)
      (fun e => logging.exception "Build failed with exception" ;;; sys_exit 1).

End Main.

(** ** Definitions used to state the properties *)

(** A caller of [FilterPackagesToTest]: it builds the two list objects,
    makes the call and reads the list that is returned. *)
Definition call_FilterPackagesToTest (changed potential : list string)
  : M (list string) :=
  changedFilesList <- new_list changed ;;
  potentialPackagesList <- new_list potential ;;
  r <- SettingsManager.FilterPackagesToTest changedFilesList potentialPackagesList ;;
  list_items r (TypeError "object is not iterable").

(** Whether a changed path makes the loop of [FilterPackagesToTest] break. *)
Definition selects (f : string) : bool :=
  PyStr.contains "BaseTools" f || PyStr.contains "platform-build-run-steps.yml" f.

(** The selection rule in the words of the specification: a path selects
    the packages when it contains BaseTools and its extension is neither
    .txt nor .md, or when it contains platform-build-run-steps.yml. *)
Definition selects_documented (f : string) : bool :=
  (PyStr.contains "BaseTools" f &&
   negb (existsb (String.eqb (snd (OsPath.splitext f))) [".txt"; ".md"]))
  || PyStr.contains "platform-build-run-steps.yml" f.

Definition FilterPackagesToTest_documented (changed potential : list string)
  : list string :=
  if existsb selects_documented changed then potential else [].

(** The names [SetArchitectures] accepts: the items [set] finds in
    [ArchSupported]. *)
Definition accepted_architectures : list string := ["A"; "R"; "C"; "H"; "6"; "4"].

(** What [GetRequiredSubmodules] logs about one submodule. *)
Definition submodule_report (h : Host) (s : RequiredSubmodule) : list LogRecord :=
  let sub_path := OsPath.join (CommonPlatform.WorkspaceRoot h) (path s) in
  if negb (exists_ h sub_path) then
    [ {| levelname := ERROR; message := "Submodule path missing: " +:+ sub_path |} ]
  else if negb (exists_ h (OsPath.join sub_path ".git")) then
    [ {| levelname := ERROR; message := "Submodule not initialized: " +:+ sub_path |} ]
  else [].

Definition required_submodules : list RequiredSubmodule :=
  [ {| path := "Binaries"; optional := true; recursive := false |};
    {| path := "Common/Mu"; optional := true; recursive := true |};
    {| path := "Common/Mu_OEM_Sample"; optional := true; recursive := true |};
    {| path := "Common/Mu_Tiano_Plus"; optional := true; recursive := true |};
    {| path := "Features/DFCI"; optional := true; recursive := true |};
    {| path := "Mu_Basecore"; optional := true; recursive := true |};
    {| path := "Silicon/Arm/Mu_Tiano"; optional := true; recursive := true |};
    {| path := "Silicium-ACPI"; optional := true; recursive := true |} ].

(** A checkout of the repository under /w in which the DSC file is in
    place and no submodule has been fetched; sets are iterated in the
    order of insertion, and every external entry point succeeds and
    leaves the store as it is. *)
Definition host_example : Host := {|
  isfile := fun p => String.eqb p "/w/Platforms/EEBBK/s6Pkg/s6.dsc";
  exists_ := fun p => String.eqb p "/w/Platforms/EEBBK"
                      || String.eqb p "/w/Platforms/EEBBK/s6Pkg";
  listdir := fun p => Ok ["DeviceBuild.py"; "s6.dsc"];
  getcwd := "/w";
  abspath___file__ := "/w/Platforms/EEBBK/s6Pkg/DeviceBuild.py";
  relpath___file__ := "Platforms/EEBBK/s6Pkg/DeviceBuild.py";
  set_order := remove_dups;
  GetValue_unset := PyNone;
  Invoke := fun _ _ s => (Ok tt, s)
|}.

Definition world_example : World := {|
  w_host := host_example;
  w_log := [];
  w_heap := {[ 1%positive := ["BaseTools/foo.c"]; 2%positive := ["PkgA"; "PkgB"] ]};
  w_env := ∅;
  w_ActualArchitectures := None;
  w_invoked := []
|}.


(** The build variables [SetPlatformEnv] writes. *)
Definition platform_variables : list string :=
  [ "PRODUCT_NAME"; "ACTIVE_PLATFORM"; "TARGET_ARCH"; "TOOL_CHAIN_TAG";
    "EMPTY_DRIVE"; "RUN_TESTS"; "SHUTDOWN_AFTER_RUN"; "BLD_*_BUILDID_STRING";
    "BUILDREPORTING"; "BUILDREPORT_TYPES"; "BLD_*_MEMORY_PROTECTION";
    "BLD_*_SHIP_MODE"; "BLD_*_FD_BASE"; "BLD_*_FD_SIZE"; "BLD_*_FD_BLOCKS" ].

(** Whether a required submodule is checked out: its directory exists and
    holds a [.git] entry. *)
Definition submodule_present (h : Host) (s : RequiredSubmodule) : bool :=
  let sub_path := OsPath.join (CommonPlatform.WorkspaceRoot h) (path s) in
  exists_ h sub_path && exists_ h (OsPath.join sub_path ".git").

(** How the entry point ends when the external entry point it invoked
    ends with [r]. *)
Definition exit_of (r : Result unit) : Result unit :=
  match r with
  | Ok _ => Ok tt
  | Raise e => if is_Exception e then Raise (SystemExit 1) else Raise e
  end.

(** The message the entry point logs when the entry point [x] fails. *)
Definition failure_message (x : Invocable) : string :=
  match x with
  | Edk2PlatformSetup => "Setup failed with exception"
  | Edk2Update => "Update failed with exception"
  | Edk2PlatformBuild => "Build failed with exception"
  end.

(** A checkout in which every path exists, and a state with build
    variables already set by the caller. Sets are iterated against the
    order of insertion; the build entry point logs and fails, the update
    exits, the setup is interrupted. *)
Definition host_complete : Host := {|
  isfile := fun _ => true;
  exists_ := fun _ => true;
  listdir := fun _ => Ok [];
  getcwd := "/w";
  abspath___file__ := "/w/Platforms/EEBBK/s6Pkg/DeviceBuild.py";
  relpath___file__ := "Platforms/EEBBK/s6Pkg/DeviceBuild.py";
  set_order := fun items => rev (remove_dups items);
  GetValue_unset := PyNone;
  Invoke := fun x _ s =>
    match x with
    | Edk2PlatformBuild =>
        (Raise (Exception "build"),
         {| s_log := s_log s ++ [ {| levelname := INFO; message := "building" |} ];
            s_heap := s_heap s; s_env := s_env s;
            s_ActualArchitectures := s_ActualArchitectures s |})
    | Edk2Update => (Raise (SystemExit 3), s)
    | Edk2PlatformSetup => (Raise KeyboardInterrupt, s)
    end
|}.



Definition world_complete : World := {|
  w_host := host_complete;
  w_log := [];
  w_heap := ∅;
  w_env := {[ "FD_BASE" := PyStr "0x9FC00000"; "FEATURE_CONFIG_PATH" := PyStr "Features" ]};
  w_ActualArchitectures := None;
  w_invoked := []
|}.

#[global] Instance RequiredSubmodule_eq_dec : EqDecision RequiredSubmodule.
Proof. solve_decision. Defined.

(** The store after a successful [SetPlatformEnv], from the store before;
    [u] is what the store answers for an unset variable. *)
Definition platform_env (u : pyval) (e : gmap string pyval) : gmap string pyval :=
  <["BLD_*_FD_BLOCKS" := default u (e !! "FD_BLOCKS")]>
  (<["BLD_*_FD_SIZE" := default u (e !! "FD_SIZE")]>
  (<["BLD_*_FD_BASE" := default u (e !! "FD_BASE")]>
  (<["BLD_*_SHIP_MODE" := PyStr "FALSE"]>
  (<["BLD_*_MEMORY_PROTECTION" := PyStr "TRUE"]>
  (<["BUILDREPORT_TYPES" :=
       PyStr "PCD DEPEX FLASH BUILD_FLAGS LIBRARY FIXED_ADDRESS HASH"]>
  (<["BUILDREPORTING" := PyStr "TRUE"]>
  (<["BLD_*_BUILDID_STRING" := PyStr "Unknown"]>
  (<["SHUTDOWN_AFTER_RUN" := PyStr "FALSE"]>
  (<["RUN_TESTS" := PyStr "FALSE"]>
  (<["EMPTY_DRIVE" := PyStr "FALSE"]>
  (<["TOOL_CHAIN_TAG" := PyStr "CLANGPDB"]>
  (<["TARGET_ARCH" := PyStr "AARCH64"]>
  (<["ACTIVE_PLATFORM" := PyStr "s6Pkg/s6.dsc"]>
  (<["PRODUCT_NAME" := PyStr "s6"]> e)))))))))))))).

(** The entry point that the flags given on the command line select. *)
Definition mode_of (given : list argparse.Flag) : Invocable :=
  if Main.flag_given "setup" given then Edk2PlatformSetup
  else if Main.flag_given "update" given then Edk2Update
  else Edk2PlatformBuild.


(** The outcome of the entry point [x] invoked with [args] in the state
    [w], and the store it leaves. *)
Definition invocation (x : Invocable) (args : list string) (w : World)
  : Result unit * Store :=
  Invoke (w_host w) x args (store_of w).

(** What the entry point of the script adds to the log when the external
    entry point [x] ends with [r]. *)
Definition failure_log (x : Invocable) (r : Result unit) : list LogRecord :=
  match r with
  | Raise e =>
      if is_Exception e
      then [ {| levelname := ERROR; message := failure_message x |} ]
      else []
  | Ok _ => []
  end.

(** The state after the entry point [x] has been invoked with [args]:
    the invocation is on the trace, the store is as the entry point left
    it, and a failure of the entry point with an exception has been
    logged. *)
Definition after_invocation (x : Invocable) (args : list string) (w : World) : World :=
  let (r, s) := invocation x args w in
  set_log (fun l => l ++ failure_log x r)
    (put_store s (set_invoked (fun t => t ++ [(x, args)]) w)).


(** The requested names that [SetArchitectures] finds unsupported, in the
    order the host iterates the set. *)
Definition unsupported_names (h : Host) (req : list string) : list string :=
  py_set_difference h (py_set h req) (py_set h (PyStr.chars "AARCH64")).
(** ** Properties *)

(** *** The monad *)

Lemma bind_Ok {A B} (m : M A) (k : A -> M B) w a w' :
  m w = (Ok a, w') -> bind m k w = k a w'.
Proof. intros H. unfold bind. rewrite H. reflexivity. Qed.

Lemma bind_Raise {A B} (m : M A) (k : A -> M B) w e w' :
  m w = (Raise e, w') -> bind m k w = (Raise e, w').
Proof. intros H. unfold bind. rewrite H. reflexivity. Qed.

(** *** SetArchitectures *)

Lemma iterate_set_Permutation h (inserted : list string) :
  iterate_set h inserted ≡ₚ elements (list_to_set inserted : gset string).
Proof. unfold iterate_set. cbv zeta. by case_decide. Qed.

Lemma elem_of_iterate_set h (inserted : list string) x :
  x ∈ iterate_set h inserted <-> x ∈ inserted.
Proof.
  rewrite (iterate_set_Permutation h inserted), elem_of_elements.
  apply elem_of_list_to_set.
Qed.

Lemma NoDup_iterate_set h (inserted : list string) : NoDup (iterate_set h inserted).
Proof. rewrite (iterate_set_Permutation h inserted). apply NoDup_elements. Qed.

Lemma elem_of_chars_ArchSupported x :
  x ∈ PyStr.chars "AARCH64" <-> x ∈ accepted_architectures.
Proof.
  cbn. unfold accepted_architectures. rewrite !elem_of_cons, !elem_of_nil. tauto.
Qed.

Lemma elem_of_unsupported_names h req x :
  x ∈ unsupported_names h req <-> x ∈ req /\ x ∉ accepted_architectures.
Proof.
  unfold unsupported_names, py_set_difference, py_set.
  rewrite elem_of_iterate_set, list_elem_of_filter, !elem_of_iterate_set.
  rewrite elem_of_chars_ArchSupported. tauto.
Qed.

Lemma NoDup_unsupported_names h req : NoDup (unsupported_names h req).
Proof. apply NoDup_iterate_set. Qed.

Lemma SetArchitectures_unfold req w :
  SettingsManager.SetArchitectures req w =
  let unsupported := unsupported_names (w_host w) req in
  if bool_decide (0 < length unsupported) then
    (Raise (Exception ("Unsupported Architecture Requested: " +:+
                       PyStr.join " " unsupported)),
     set_log (fun l => l ++ [ {| levelname := CRITICAL;
                                 message := "Unsupported Architecture Requested: " +:+
                                            PyStr.join " " unsupported |} ]) w)
  else (Ok tt, set_ActualArchitectures (Some req) w).
Proof.
  cbv [SettingsManager.SetArchitectures SettingsManager.GetArchitecturesSupported
       bind ret get_host py_iter CommonPlatform.ArchSupported].
  fold (unsupported_names (w_host w) req). cbv zeta.
  destruct (bool_decide _); reflexivity.
Qed.

Lemma unsupported_names_nil_iff h req :
  unsupported_names h req = [] <-> forall a, a ∈ req -> a ∈ accepted_architectures.
Proof.
  split.
  - intros E a Ha. destruct (decide (a ∈ accepted_architectures)) as [|Hn]; [done|].
    exfalso. assert (H : a ∈ unsupported_names h req)
      by (by apply elem_of_unsupported_names).
    rewrite E in H. by apply elem_of_nil in H.
  - intros Hall. destruct (unsupported_names h req) as [|x l] eqn:E; [done|].
    exfalso. assert (H : x ∈ unsupported_names h req) by (rewrite E; by left).
    apply elem_of_unsupported_names in H as [Hx Hn]. by apply Hn, Hall.
Qed.

(** The call succeeds exactly when every requested name is one of the
    characters of the string AARCH64; it then records the request. *)
Lemma SetArchitectures_accepts_iff req w :
  SettingsManager.SetArchitectures req w = (Ok tt, set_ActualArchitectures (Some req) w)
  <-> forall a, a ∈ req -> a ∈ accepted_architectures.
Proof.
  rewrite SetArchitectures_unfold. cbv zeta.
  rewrite <- (unsupported_names_nil_iff (w_host w) req).
  destruct (unsupported_names (w_host w) req) as [|x l]; cbn.
  - split; done.
  - split; discriminate.
Qed.

(** C1: requesting the architecture list [AARCH64] does not succeed: the
    supported architectures are the string AARCH64, whose items are its
    characters, so the name AARCH64 is reported as unsupported, an
    exception is raised and no request is recorded. *)
Theorem SetArchitectures_AARCH64_raises w :
  SettingsManager.SetArchitectures ["AARCH64"] w =
  (Raise (Exception "Unsupported Architecture Requested: AARCH64"),
   set_log (fun l => l ++ [ {| levelname := CRITICAL;
                               message := "Unsupported Architecture Requested: AARCH64" |} ]) w).
Proof.
  rewrite SetArchitectures_unfold. cbv zeta.
  assert (E : unsupported_names (w_host w) ["AARCH64"] = ["AARCH64"]).
  { apply Permutation_singleton_r. apply NoDup_Permutation.
    - apply NoDup_unsupported_names.
    - apply NoDup_singleton.
    - intros x. rewrite elem_of_unsupported_names, !list_elem_of_singleton.
      split; [by intros [-> _]|intros ->; split; [done|compute_done]]. }
  rewrite E. reflexivity.
Qed.

(** *** FilterPackagesToTest *)

(** The extension test compares the pair that [splitext] returns with
    strings: the pair is never found in the list. *)
Lemma splitext_pair_not_in f :
  py_in (let (root, ext) := OsPath.splitext f in PyTuple [root; ext])
        [PyStr ".txt"; PyStr ".md"] = false.
Proof. destruct (OsPath.splitext f) as [root ext]. reflexivity. Qed.

Lemma FilterPackagesToTest_loop_selects files possible_packages build :
  SettingsManager.FilterPackagesToTest_loop files possible_packages build =
  if existsb selects files then possible_packages else build.
Proof.
  induction files as [|f rest IH]; [reflexivity|].
  cbn [SettingsManager.FilterPackagesToTest_loop existsb].
  rewrite splitext_pair_not_in, IH. unfold selects.
  destruct (PyStr.contains "BaseTools" f); [reflexivity|].
  destruct (PyStr.contains "platform-build-run-steps.yml" f); reflexivity.
Qed.

Lemma fresh_lookup_ne (h : gmap loc (list string)) (l : loc) items :
  h !! l = Some items -> fresh (dom h) ≠ l.
Proof.
  intros Hl E. apply (is_fresh (dom h)). rewrite E. apply elem_of_dom. eauto.
Qed.

(** What a call does to the heap: two list objects are allocated, the
    empty [build_these_packages] and the copy of the candidates, and one
    of the two is returned. *)
Lemma FilterPackagesToTest_run w c p files pkgs :
  w_heap w !! c = Some files ->
  w_heap w !! p = Some pkgs ->
  let b := fresh (dom (w_heap w)) in
  let cp := fresh (dom (<[b := []]> (w_heap w))) in
  SettingsManager.FilterPackagesToTest c p w =
  (Ok (if existsb selects files then cp else b),
   set_heap (fun h => <[cp := pkgs]> (<[b := []]> h)) w).
Proof.
  intros Hc Hp b cp.
  assert (Hbp : b ≠ p) by (eapply fresh_lookup_ne; eauto).
  assert (Hbc : b ≠ c) by (eapply fresh_lookup_ne; eauto).
  assert (Hcpc : cp ≠ c).
  { eapply fresh_lookup_ne. rewrite lookup_insert_ne by done. eauto. }
  cbv [SettingsManager.FilterPackagesToTest bind ret new_list list_copy list_items].
  cbn [w_heap set_heap]. fold b.
  rewrite (lookup_insert_ne _ b p) by done. rewrite Hp.
  cbn [w_heap set_heap]. fold cp.
  rewrite (lookup_insert_ne _ cp c), (lookup_insert_ne _ b c), Hc by done.
  rewrite FilterPackagesToTest_loop_selects. reflexivity.
Qed.

Lemma call_FilterPackagesToTest_result changed potential w :
  fst (call_FilterPackagesToTest changed potential w) =
  Ok (if existsb selects changed then potential else []).
Proof.
  unfold call_FilterPackagesToTest.
  set (l1 := fresh (dom (w_heap w))).
  set (w1 := set_heap (insert l1 changed) w).
  set (l2 := fresh (dom (w_heap w1))).
  set (w2 := set_heap (insert l2 potential) w1).
  assert (H1 : w_heap w2 !! l1 = Some changed).
  { cbn. rewrite lookup_insert_ne, lookup_insert_eq; [done|].
    eapply fresh_lookup_ne. cbn. apply lookup_insert_eq. }
  assert (H2 : w_heap w2 !! l2 = Some potential) by (cbn; apply lookup_insert_eq).
  rewrite (bind_Ok _ _ w l1 w1) by reflexivity.
  rewrite (bind_Ok _ _ w1 l2 w2) by reflexivity.
  erewrite bind_Ok by (apply (FilterPackagesToTest_run w2 l1 l2 changed potential H1 H2)).
  unfold list_items. cbn [w_heap set_heap].
  set (b := fresh (dom (w_heap w2))).
  set (cp := fresh (dom (<[b := []]> (w_heap w2)))).
  destruct (existsb selects changed).
  - rewrite lookup_insert_eq. reflexivity.
  - rewrite lookup_insert_ne, lookup_insert_eq; [reflexivity|].
    eapply fresh_lookup_ne. apply lookup_insert_eq.
Qed.

(** C2: with the changed files [BaseTools/readme.md] the call returns
    the candidates, whatever they are, and not the empty list: the
    extension of the path plays no part in the selection. *)
Theorem FilterPackagesToTest_readme_md_selects potential w :
  fst (call_FilterPackagesToTest ["BaseTools/readme.md"] potential w) = Ok potential.
Proof. rewrite call_FilterPackagesToTest_result. reflexivity. Qed.

(** The code and the documented rule agree on every list of changed
    files that has no BaseTools path with the extension .txt or .md. *)
Lemma FilterPackagesToTest_agrees_with_documented changed potential w :
  (forall f, f ∈ changed -> PyStr.contains "BaseTools" f = true ->
             snd (OsPath.splitext f) ≠ ".txt" /\ snd (OsPath.splitext f) ≠ ".md") ->
  fst (call_FilterPackagesToTest changed potential w) =
  Ok (FilterPackagesToTest_documented changed potential).
Proof.
  intros H. rewrite call_FilterPackagesToTest_result. unfold FilterPackagesToTest_documented.
  replace (existsb selects_documented changed) with (existsb selects changed); [reflexivity|].
  induction changed as [|f rest IH]; [reflexivity|].
  cbn [existsb]. rewrite IH by (intros g Hg; apply H; by right). f_equal.
  unfold selects, selects_documented.
  destruct (PyStr.contains "BaseTools" f) eqn:E; [|reflexivity].
  destruct (H f (list_elem_of_here _ _) E) as [Htxt Hmd].
  cbn [existsb]. apply String.eqb_neq in Htxt, Hmd.
  rewrite Htxt, Hmd. reflexivity.
Qed.

Lemma FilterPackagesToTest_source_file w :
  fst (call_FilterPackagesToTest ["BaseTools/foo.c"] ["PkgA"; "PkgB"] w) = Ok ["PkgA"; "PkgB"].
Proof. rewrite call_FilterPackagesToTest_result. reflexivity. Qed.

Lemma FilterPackagesToTest_unrelated potential w :
  fst (call_FilterPackagesToTest ["unrelated/file.c"] potential w) = Ok [].
Proof. rewrite call_FilterPackagesToTest_result. reflexivity. Qed.

(** C5: the rule of the claim does not describe the code on a changed
    BaseTools text file: the code returns the candidates where the rule
    gives the empty list. *)
Theorem FilterPackagesToTest_text_file_diverges w :
  fst (call_FilterPackagesToTest ["BaseTools/notes.txt"] ["PkgA"; "PkgB"] w)
    = Ok ["PkgA"; "PkgB"]
  /\ FilterPackagesToTest_documented ["BaseTools/notes.txt"] ["PkgA"; "PkgB"] = [].
Proof. split; [rewrite call_FilterPackagesToTest_result|]; reflexivity. Qed.

(** C9: a call leaves every list object of the caller as it was, the two
    arguments among them; the list it returns is a new object, either the
    empty list it has built or the copy of the candidates, never the
    caller's list. *)
Theorem FilterPackagesToTest_frame w c p files pkgs :
  w_heap w !! c = Some files ->
  w_heap w !! p = Some pkgs ->
  exists r w',
    SettingsManager.FilterPackagesToTest c p w = (Ok r, w')
    /\ (forall l items, w_heap w !! l = Some items -> w_heap w' !! l = Some items)
    /\ w_heap w' !! c = Some files
    /\ w_heap w' !! p = Some pkgs
    /\ w_heap w !! r = None
    /\ r ≠ p /\ r ≠ c
    /\ (w_heap w' !! r = Some pkgs \/ w_heap w' !! r = Some [])
    /\ (forall items, w_heap w' !! r = Some items -> items ≠ [] ->
          items = pkgs /\ r = fresh (dom (<[fresh (dom (w_heap w)) := []]> (w_heap w)))).
Proof.
  intros Hc Hp.
  set (b := fresh (dom (w_heap w))).
  set (cp := fresh (dom (<[b := []]> (w_heap w)))).
  assert (Hb : w_heap w !! b = None) by (apply not_elem_of_dom, is_fresh).
  assert (Hcp : (<[b := []]> (w_heap w)) !! cp = None) by (apply not_elem_of_dom, is_fresh).
  assert (Hcpb : cp ≠ b).
  { intros E. rewrite E, lookup_insert_eq in Hcp. discriminate. }
  assert (Hcp' : w_heap w !! cp = None) by (rewrite lookup_insert_ne in Hcp; done).
  assert (Hkeep : forall l items, w_heap w !! l = Some items ->
            (<[cp := pkgs]> (<[b := []]> (w_heap w))) !! l = Some items).
  { intros l items Hl. rewrite !lookup_insert_ne; [done| |]; intros E; subst l; congruence. }
  eexists _, _. split; [apply (FilterPackagesToTest_run w c p files pkgs Hc Hp)|].
  fold b cp. cbn [w_heap set_heap].
  split; [exact Hkeep|]. split; [by apply Hkeep|]. split; [by apply Hkeep|].
  destruct (existsb selects files).
  - split; [done|]. split; [congruence|]. split; [congruence|].
    rewrite lookup_insert_eq. split; [by left|].
    intros items [= <-] _. done.
  - split; [done|]. split; [congruence|]. split; [congruence|].
    rewrite lookup_insert_ne, lookup_insert_eq by done. split; [by right|].
    intros items [= <-] Hne. done.
Qed.

Lemma FilterPackagesToTest_frame_witness :
  exists r w',
    SettingsManager.FilterPackagesToTest 1%positive 2%positive world_example = (Ok r, w')
    /\ (forall l items, w_heap world_example !! l = Some items -> w_heap w' !! l = Some items)
    /\ w_heap w' !! 1%positive = Some ["BaseTools/foo.c"]
    /\ w_heap w' !! 2%positive = Some ["PkgA"; "PkgB"]
    /\ w_heap world_example !! r = None
    /\ r ≠ 2%positive /\ r ≠ 1%positive
    /\ (w_heap w' !! r = Some ["PkgA"; "PkgB"] \/ w_heap w' !! r = Some [])
    /\ (forall items, w_heap w' !! r = Some items -> items ≠ [] ->
          items = ["PkgA"; "PkgB"]
          /\ r = fresh (dom (<[fresh (dom (w_heap world_example)) := []]> (w_heap world_example)))).
Proof.
  apply (FilterPackagesToTest_frame world_example 1%positive 2%positive
           ["BaseTools/foo.c"] ["PkgA"; "PkgB"]); reflexivity.
Defined.

(** *** DSC resolution and environment setup *)





(** *** Required submodules *)

Lemma set_log_nil w : set_log (fun l => l ++ []) w = w.
Proof. destruct w. unfold set_log. cbn. by rewrite app_nil_r. Qed.

Lemma set_log_app a b w :
  set_log (fun l => l ++ b) (set_log (fun l => l ++ a) w) = set_log (fun l => l ++ a ++ b) w.
Proof. unfold set_log. cbn. by rewrite app_assoc. Qed.

(** A loop whose body only appends records to the log appends the
    records of all its rounds, in order; the host stays the same. *)
Lemma for_each_logs {A} (items : list A) (body : A -> M unit)
    (report : A -> list LogRecord) (h : Host) :
  (forall x w, w_host w = h ->
               body x w = (Ok tt, set_log (fun l => l ++ report x) w)) ->
  forall w, w_host w = h ->
            for_each items body w =
            (Ok tt, set_log (fun l => l ++ flat_map report items) w).
Proof.
  intros Hbody. induction items as [|x rest IH]; intros w Hw.
  - cbn. by rewrite set_log_nil.
  - cbn [for_each flat_map]. unfold bind. rewrite Hbody by done.
    rewrite IH by done. by rewrite set_log_app.
Qed.

Lemma submodule_report_ERROR h s :
  Forall (fun r => levelname r = ERROR) (submodule_report h s).
Proof.
  unfold submodule_report.
  destruct (exists_ h _); cbn [negb]; [destruct (exists_ h _); cbn [negb]|];
    repeat constructor.
Qed.

(** C6: whatever the file system holds, the call returns the same list
    of eight submodules and never raises; a missing or uninitialised
    submodule directory only adds a record of level ERROR to the log. *)
Theorem GetRequiredSubmodules_spec w :
  SettingsManager.GetRequiredSubmodules w =
    (Ok required_submodules,
     set_log (fun l => l ++ flat_map (submodule_report (w_host w)) required_submodules) w)
  /\ length required_submodules = 8
  /\ Forall (fun r => levelname r = ERROR)
            (flat_map (submodule_report (w_host w)) required_submodules).
Proof.
  split; [|split; [reflexivity|]].
  - unfold SettingsManager.GetRequiredSubmodules, SettingsManager.GetWorkspaceRoot.
    cbv zeta. fold required_submodules.
    cbv [bind get_host ret].
    rewrite (for_each_logs required_submodules _
               (submodule_report (w_host w)) (w_host w)); [reflexivity| |reflexivity].
    intros s w0 Hw0. unfold submodule_report. rewrite Hw0.
    destruct (exists_ (w_host w) _); cbn [negb];
      [destruct (exists_ (w_host w) _); cbn [negb]|];
      try reflexivity.
    cbv [ret]. by rewrite set_log_nil.
  - apply Forall_flat_map. apply Forall_forall. intros s _. apply submodule_report_ERROR.
Qed.

(** *** Package search path *)

(** C10: the result is a list of eleven items: the value of the build
    variable FEATURE_CONFIG_PATH, or the empty string when the variable
    is unset, followed by the ten paths of CommonPlatform.PackagesPath in
    the order they are declared. *)
Theorem GetPackagesPath_spec w :
  exists items,
    CommonPlatform.PackagesPath = PyTuple items
    /\ length items = 10
    /\ PlatformBuilder.GetPackagesPath w =
       (Ok (match w_env w !! "FEATURE_CONFIG_PATH" with
            | Some v => v
            | None => PyStr ""
            end :: map PyStr items), w).
Proof.
  eexists. split; [reflexivity|]. split; [reflexivity|].
  cbv [PlatformBuilder.GetPackagesPath VarDict.GetValue bind ret py_iter
       CommonPlatform.PackagesPath].
  destruct (w_env w !! "FEATURE_CONFIG_PATH"); reflexivity.
Qed.

(** *** Command-line options of the builder *)

(** C7, as the code has it: the argument -a/--arch is registered with
    the default AARCH64, and a value is accepted exactly when its upper
    case is AARCH64; any other value raises an exception, and neither
    outcome touches the state. *)
Theorem RetrieveCommandLineOptions_spec build_arch w :
  (forall parserObj, exists a,
      PlatformBuilder.AddCommandLineOptions parserObj = parserObj ++ [a]
      /\ argparse.arg_option_strings a = ["-a"; "--arch"]
      /\ argparse.arg_dest a = "build_arch"
      /\ argparse.arg_default a = PyStr "AARCH64")
  /\ PlatformBuilder.RetrieveCommandLineOptions "AARCH64" w = (Ok tt, w)
  /\ PlatformBuilder.RetrieveCommandLineOptions build_arch w =
     (if String.eqb (PyStr.upper build_arch) "AARCH64"
      then Ok tt
      else Raise (Exception "Invalid Arch Specified.  Please see comments in DeviceBuild.py::PlatformBuilder::AddCommandLineOptions"),
      w).
Proof.
  split; [|split].
  - intros parserObj. eexists. split; [reflexivity|]. repeat split.
  - reflexivity.
  - unfold PlatformBuilder.RetrieveCommandLineOptions.
    destruct (String.eqb (PyStr.upper build_arch) "AARCH64"); reflexivity.
Qed.

(** C7 as stated fails: the lower-case spelling is accepted too. *)
Lemma RetrieveCommandLineOptions_lowercase_accepted :
  PlatformBuilder.RetrieveCommandLineOptions "aarch64" world_example = (Ok tt, world_example)
  /\ "aarch64" ≠ "AARCH64".
Proof. split; [reflexivity|discriminate]. Qed.

(** *** Mode flags of the entry point *)

Lemma parse_optional_total table a w :
  (exists p, argparse.parse_optional table a w = (Ok p, w))
  \/ argparse.parse_optional table a w = (Raise (SystemExit 2), w).
Proof.
  unfold argparse.parse_optional, argparse.error, raise, ret.
  repeat (case_match; try (left; eexists; reflexivity); try (right; reflexivity)).
Qed.

Lemma find_options_total table args w :
  argparse.find_options table args w = (Raise (SystemExit 2), w)
  \/ exists items, argparse.find_options table args w = (Ok items, w).
Proof.
  induction args as [|a rest IH]; [right; eexists; reflexivity|].
  cbn [argparse.find_options]. destruct (String.eqb a "--"); [right; eexists; reflexivity|].
  unfold bind.
  destruct (parse_optional_total table a w) as [[p ->]| ->]; [|by left].
  destruct IH as [->|[items ->]]; [by left|right; eexists; reflexivity].
Qed.

(** An option string that stands before any [--] is found as an option
    by the first pass, unless the pass ends in an error. *)
Lemma find_options_keeps table pre post w a f :
  "--" ∉ pre -> a ∈ pre ->
  (forall w0, argparse.parse_optional table a w0 = (Ok (argparse.Optional f None), w0)) ->
  argparse.find_options table (pre ++ post) w = (Raise (SystemExit 2), w)
  \/ exists items, argparse.find_options table (pre ++ post) w = (Ok items, w)
                   /\ (a, argparse.Optional f None) ∈ items.
Proof.
  intros Hsep Ha Hparse. induction pre as [|x pre IH]; [by apply elem_of_nil in Ha|].
  apply not_elem_of_cons in Hsep as [Hx Hsep].
  cbn [app argparse.find_options].
  destruct (String.eqb_spec x "--") as [->|_]; [done|].
  unfold bind.
  destruct (parse_optional_total table x w) as [[p Hp]|Hp]; rewrite Hp; [|by left].
  apply elem_of_cons in Ha as [->|Ha].
  - rewrite Hparse in Hp. injection Hp as <-.
    destruct (find_options_total table (pre ++ post) w) as [->|[items ->]]; [by left|].
    right. eexists. split; [reflexivity|]. by left.
  - destruct (IH Hsep Ha) as [->|[items [-> Hin]]]; [by left|].
    right. eexists. split; [reflexivity|]. by right.
Qed.






(** *** Further facts about SetArchitectures *)

(** A request with a name that is no character of AARCH64 raises an
    exception and records nothing. *)
Lemma SetArchitectures_rejects req w a :
  a ∈ req -> a ∉ accepted_architectures ->
  exists msg w',
    SettingsManager.SetArchitectures req w = (Raise (Exception msg), w')
    /\ w_ActualArchitectures w' = w_ActualArchitectures w.
Proof.
  intros Ha Hn. rewrite SetArchitectures_unfold. cbv zeta.
  assert (Hin : a ∈ unsupported_names (w_host w) req)
    by (by apply elem_of_unsupported_names).
  destruct (unsupported_names (w_host w) req) as [|x l];
    [by apply elem_of_nil in Hin|].
  rewrite bool_decide_eq_true_2 by (cbn; lia).
  eexists _, _. split; reflexivity.
Qed.

Lemma SetArchitectures_X64_raises w :
  exists msg w', SettingsManager.SetArchitectures ["X64"] w = (Raise (Exception msg), w').
Proof.
  destruct (SetArchitectures_rejects ["X64"] w "X64") as (msg & w' & H & _);
    [compute_done|compute_done|eauto].
Qed.

Lemma SetArchitectures_AARCH64_X64_raises w :
  exists msg w',
    SettingsManager.SetArchitectures ["AARCH64"; "X64"] w = (Raise (Exception msg), w').
Proof.
  destruct (SetArchitectures_rejects ["AARCH64"; "X64"] w "X64") as (msg & w' & H & _);
    [compute_done|compute_done|eauto].
Qed.

(** The single characters of the architecture name are accepted. *)
Lemma SetArchitectures_characters_accepted w :
  SettingsManager.SetArchitectures ["A"; "6"] w =
  (Ok tt, set_ActualArchitectures (Some ["A"; "6"]) w).
Proof.
  apply SetArchitectures_accepts_iff. intros a Ha.
  apply elem_of_cons in Ha as [->|Ha]; [compute_done|].
  apply elem_of_cons in Ha as [->|Ha]; [compute_done|].
  by apply elem_of_nil in Ha.
Qed.

(** *** The library functions on sample inputs *)

Example splitext_readme :
  OsPath.splitext "BaseTools/readme.md" = ("BaseTools/readme", ".md").
Proof. reflexivity. Qed.

Example splitext_hidden : OsPath.splitext "a.b/.bashrc" = ("a.b/.bashrc", "").
Proof. reflexivity. Qed.

Example dirname_dsc : OsPath.dirname "/w/s6Pkg/s6.dsc" = "/w/s6Pkg".
Proof. reflexivity. Qed.

Example join_dsc : OsPath.join "/w" "s6Pkg/s6.dsc" = "/w/s6Pkg/s6.dsc".
Proof. reflexivity. Qed.

Example WorkspaceRoot_example :
  CommonPlatform.WorkspaceRoot host_example = "/w/Platforms/EEBBK".
Proof. reflexivity. Qed.

Example upper_mixed : PyStr.upper "aArch64" = "AARCH64".
Proof. reflexivity. Qed.

Example parse_setup_with_remaining :
  argparse.parse_known_args Main.parse_group
    ["--set"; "foo"; "-x"; "--SETUP"; "A=B"] world_example =
  (Ok ([ {| argparse.option_strings := ["--setup"; "--SETUP"]; argparse.dest := "setup" |};
         {| argparse.option_strings := ["--setup"; "--SETUP"]; argparse.dest := "setup" |} ],
       ["foo"; "-x"; "A=B"]), world_example).
Proof. reflexivity. Qed.

Example parse_update_twice :
  fst (argparse.parse_known_args Main.parse_group ["--update"; "--UPDATE"; "-"; ""]
         world_example) =
  Ok ([ {| argparse.option_strings := ["--update"; "--UPDATE"]; argparse.dest := "update" |};
        {| argparse.option_strings := ["--update"; "--UPDATE"]; argparse.dest := "update" |} ],
      ["-"; ""]).
Proof. reflexivity. Qed.

Example parse_abbreviated_conflict :
  fst (argparse.parse_known_args Main.parse_group ["--up"; "--se"] world_example) =
  Raise (SystemExit 2).
Proof. reflexivity. Qed.

Example parse_explicit_argument :
  fst (argparse.parse_known_args Main.parse_group ["--UPDATE=1"] world_example) =
  Raise (SystemExit 2).
Proof. reflexivity. Qed.

Example parse_ambiguous :
  fst (argparse.parse_known_args Main.parse_group ["--=x"] world_example) =
  Raise (SystemExit 2).
Proof. reflexivity. Qed.

Example parse_setup_then_separator :
  fst (argparse.parse_known_args Main.parse_group ["--setup"; "--"; "--update"]
         world_example) =
  Ok ([ {| argparse.option_strings := ["--setup"; "--SETUP"]; argparse.dest := "setup" |} ],
      ["--"; "--update"]).
Proof. reflexivity. Qed.

(** An exception of the external entry point becomes a log record, after
    what the entry point logged, and the exit status 1; an exit or an
    interrupt of the entry point itself passes through. *)
Example main_build_failure :
  fst (Main.main [] world_complete) = Raise (SystemExit 1)
  /\ w_log (snd (Main.main [] world_complete)) =
     [ {| levelname := INFO; message := "building" |};
       {| levelname := ERROR; message := "Build failed with exception" |} ]
  /\ fst (Main.main ["--update"] world_complete) = Raise (SystemExit 3)
  /\ Main.main ["--setup"] world_complete =
     (Raise KeyboardInterrupt,
      set_invoked (fun t => t ++ [(Edk2PlatformSetup,
                                   ["stuart"; "-c"; "Platforms/EEBBK/s6Pkg/DeviceBuild.py"])])
        world_complete).
Proof. repeat split. Qed.

(** ** Further properties of the code *)

(** *** SetArchitectures: verdict and report *)

(** X1: A request is accepted exactly when each of its names is one of the
    one-character items of the string [ArchSupported]; the empty request
    is among them. An accepted request is recorded as it was given and
    nothing is logged. *)
Theorem SetArchitectures_verdict req w :
  if forallb (fun a => bool_decide (a ∈ accepted_architectures)) req
  then SettingsManager.SetArchitectures req w =
       (Ok tt, set_ActualArchitectures (Some req) w)
  else exists msg w',
      SettingsManager.SetArchitectures req w = (Raise (Exception msg), w')
      /\ w_ActualArchitectures w' = w_ActualArchitectures w.
Proof.
  destruct (forallb _ req) eqn:E.
  - apply SetArchitectures_accepts_iff. intros a Ha.
    rewrite forallb_forall in E. apply list_elem_of_In in Ha.
    specialize (E a Ha). by apply bool_decide_eq_true in E.
  - apply not_true_iff_false in E. rewrite forallb_forall in E.
    destruct (decide (Forall (fun a => a ∈ accepted_architectures) req)) as [Hall|Hex].
    + exfalso. apply E. intros a Ha. apply bool_decide_eq_true.
      rewrite Forall_forall in Hall. by apply Hall, list_elem_of_In.
    + apply not_Forall_Exists in Hex; [|apply _].
      apply Exists_exists in Hex as (a & Ha & Hn).
      by apply (SetArchitectures_rejects req w a).
Qed.

(** X2: A rejected request is reported by name: the message of the exception,
    which is also the one record logged, at level CRITICAL, lists every
    requested name that is not accepted, each once, and no other; the
    earlier record of architectures is kept. *)
Theorem SetArchitectures_reports_unsupported req w a :
  a ∈ req -> a ∉ accepted_architectures ->
  exists names,
    NoDup names
    /\ (forall x, x ∈ names <-> x ∈ req /\ x ∉ accepted_architectures)
    /\ SettingsManager.SetArchitectures req w =
       (Raise (Exception ("Unsupported Architecture Requested: " +:+ PyStr.join " " names)),
        set_log (fun l => l ++ [ {| levelname := CRITICAL;
                                    message := "Unsupported Architecture Requested: " +:+
                                               PyStr.join " " names |} ]) w).
Proof.
  intros Ha Hn.
  exists (unsupported_names (w_host w) req).
  split; [apply NoDup_unsupported_names|]. split.
  - intros x. apply elem_of_unsupported_names.
  - rewrite SetArchitectures_unfold. cbv zeta.
    assert (Hin : a ∈ unsupported_names (w_host w) req)
      by (by apply elem_of_unsupported_names).
    destruct (unsupported_names (w_host w) req) as [|x l];
      [by apply elem_of_nil in Hin|].
    by rewrite bool_decide_eq_true_2 by (cbn; lia).
Qed.

Lemma SetArchitectures_reports_unsupported_witness :
  exists names,
    NoDup names
    /\ (forall x, x ∈ names <-> x ∈ ["X64"; "A"; "X64"] /\ x ∉ accepted_architectures)
    /\ SettingsManager.SetArchitectures ["X64"; "A"; "X64"] world_example =
       (Raise (Exception ("Unsupported Architecture Requested: " +:+ PyStr.join " " names)),
        set_log (fun l => l ++ [ {| levelname := CRITICAL;
                                    message := "Unsupported Architecture Requested: " +:+
                                               PyStr.join " " names |} ]) world_example).
Proof.
  apply (SetArchitectures_reports_unsupported ["X64"; "A"; "X64"] world_example "X64");
    compute_done.
Defined.

(** X3: Repetition and order in a request do not change what is found
    unsupported: two requests with the same set of names are both
    accepted, or both rejected with messages that list the same names,
    each once, in an order that may differ between the two. *)
Theorem SetArchitectures_set_only req req' w :
  (list_to_set req : gset string) = list_to_set req' ->
  match fst (SettingsManager.SetArchitectures req w),
        fst (SettingsManager.SetArchitectures req' w) with
  | Ok _, Ok _ => True
  | Raise e, Raise e' =>
      exists names names',
        names ≡ₚ names' /\ NoDup names
        /\ e = Exception ("Unsupported Architecture Requested: " +:+
                          PyStr.join " " names)
        /\ e' = Exception ("Unsupported Architecture Requested: " +:+
                           PyStr.join " " names')
  | _, _ => False
  end.
Proof.
  intros E. rewrite !SetArchitectures_unfold. cbv zeta.
  assert (Hperm : unsupported_names (w_host w) req ≡ₚ unsupported_names (w_host w) req').
  { apply NoDup_Permutation; [apply NoDup_unsupported_names..|].
    intros x. rewrite !elem_of_unsupported_names.
    assert (Hx : x ∈ req <-> x ∈ req').
    { rewrite <- !(elem_of_list_to_set (C := gset string)). by rewrite E. }
    tauto. }
  pose proof (Permutation_length Hperm) as Hlen. rewrite <- Hlen.
  destruct (bool_decide _); cbn; [|done].
  exists (unsupported_names (w_host w) req), (unsupported_names (w_host w) req').
  split; [done|]. split; [apply NoDup_unsupported_names|]. done.
Qed.

Lemma SetArchitectures_set_only_witness :
  match fst (SettingsManager.SetArchitectures ["AARCH64"; "X64"; "A"] world_example),
        fst (SettingsManager.SetArchitectures ["X64"; "A"; "AARCH64"; "A"] world_example) with
  | Ok _, Ok _ => True
  | Raise e, Raise e' =>
      exists names names',
        names ≡ₚ names' /\ NoDup names
        /\ e = Exception ("Unsupported Architecture Requested: " +:+
                          PyStr.join " " names)
        /\ e' = Exception ("Unsupported Architecture Requested: " +:+
                           PyStr.join " " names')
  | _, _ => False
  end.
Proof.
  apply (SetArchitectures_set_only ["AARCH64"; "X64"; "A"]
           ["X64"; "A"; "AARCH64"; "A"] world_example).
  compute_done.
Defined.

(** The order of the names in the message follows the order the host
    iterates the set in: with insertion order, the two requests above
    get different messages. *)
Example SetArchitectures_message_order :
  fst (SettingsManager.SetArchitectures ["AARCH64"; "X64"; "A"] world_example) =
    Raise (Exception "Unsupported Architecture Requested: AARCH64 X64")
  /\ fst (SettingsManager.SetArchitectures ["X64"; "A"; "AARCH64"; "A"] world_example) =
     Raise (Exception "Unsupported Architecture Requested: X64 AARCH64").
Proof. repeat split; vm_compute; reflexivity. Qed.

(** *** FilterPackagesToTest: which changes select the packages *)

(** X4: When no changed path contains BaseTools or
    platform-build-run-steps.yml, and so when nothing has changed at
    all, no package is selected. *)
Theorem FilterPackagesToTest_unrelated_changes changed potential w :
  Forall (fun f => PyStr.contains "BaseTools" f = false
                   /\ PyStr.contains "platform-build-run-steps.yml" f = false) changed ->
  fst (call_FilterPackagesToTest changed potential w) = Ok [].
Proof.
  intros H. rewrite call_FilterPackagesToTest_result.
  replace (existsb selects changed) with false; [reflexivity|].
  symmetry. induction H as [|f rest [Hb Hy] _ IH]; [reflexivity|].
  cbn [existsb]. unfold selects at 1. by rewrite Hb, Hy, IH.
Qed.

Lemma FilterPackagesToTest_unrelated_changes_witness :
  fst (call_FilterPackagesToTest ["docs/readme.md"; "Platforms/EEBBK/s6Pkg/s6.dsc"]
         ["PkgA"; "PkgB"] world_example) = Ok []
  /\ fst (call_FilterPackagesToTest [] ["PkgA"; "PkgB"] world_example) = Ok [].
Proof.
  split.
  - apply (FilterPackagesToTest_unrelated_changes
             ["docs/readme.md"; "Platforms/EEBBK/s6Pkg/s6.dsc"] ["PkgA"; "PkgB"]
             world_example).
    repeat constructor.
  - apply (FilterPackagesToTest_unrelated_changes [] ["PkgA"; "PkgB"] world_example).
    constructor.
Defined.

(** X5: A change to a path that contains platform-build-run-steps.yml selects
    all the candidates, wherever it stands in the list and whatever the
    other changes are. *)
Theorem FilterPackagesToTest_run_steps_change changed potential w f :
  f ∈ changed ->
  PyStr.contains "platform-build-run-steps.yml" f = true ->
  fst (call_FilterPackagesToTest changed potential w) = Ok potential.
Proof.
  intros Hin Hy. rewrite call_FilterPackagesToTest_result.
  replace (existsb selects changed) with true; [reflexivity|].
  symmetry. apply existsb_exists. exists f. split; [by apply list_elem_of_In|].
  unfold selects. rewrite Hy. apply orb_true_r.
Qed.

Lemma FilterPackagesToTest_run_steps_change_witness :
  fst (call_FilterPackagesToTest
         ["docs/readme.md"; ".azurepipelines/platform-build-run-steps.yml"]
         ["PkgA"; "PkgB"] world_example) = Ok ["PkgA"; "PkgB"].
Proof.
  apply (FilterPackagesToTest_run_steps_change
           ["docs/readme.md"; ".azurepipelines/platform-build-run-steps.yml"]
           ["PkgA"; "PkgB"] world_example
           ".azurepipelines/platform-build-run-steps.yml").
  - compute_done.
  - reflexivity.
Defined.

Lemma existsb_selects_mono (changed changed' : list string) :
  changed ⊆ changed' -> existsb selects changed = true -> existsb selects changed' = true.
Proof.
  intros Hsub H. apply existsb_exists in H as (f & Hin & Hf).
  apply existsb_exists. exists f. split; [|done].
  apply list_elem_of_In, Hsub, list_elem_of_In, Hin.
Qed.

(** X6: The selection grows with the changes: when every changed path of one
    call is among those of another, the other call returns what the first
    returned or more. Calls whose changed paths are the same up to order
    and repetition return the same. *)
Theorem FilterPackagesToTest_monotone changed changed' potential w w' :
  changed ⊆ changed' ->
  (fst (call_FilterPackagesToTest changed potential w) = Ok potential ->
   fst (call_FilterPackagesToTest changed' potential w') = Ok potential)
  /\ (changed' ⊆ changed ->
      fst (call_FilterPackagesToTest changed potential w) =
      fst (call_FilterPackagesToTest changed' potential w')).
Proof.
  intros Hsub. rewrite !call_FilterPackagesToTest_result. split.
  - destruct (existsb selects changed) eqn:E.
    + by rewrite (existsb_selects_mono changed changed' Hsub E).
    + intros [= <-]. by destruct (existsb selects changed').
  - intros Hsub'.
    destruct (existsb selects changed) eqn:E.
    + by rewrite (existsb_selects_mono changed changed' Hsub E).
    + destruct (existsb selects changed') eqn:E'; [|done].
      rewrite (existsb_selects_mono changed' changed Hsub' E') in E. discriminate.
Qed.

Lemma FilterPackagesToTest_monotone_witness :
  fst (call_FilterPackagesToTest ["a.c"; "BaseTools/foo.c"; "a.c"] ["PkgA"] world_complete)
  = Ok ["PkgA"]
  /\ fst (call_FilterPackagesToTest ["BaseTools/foo.c"; "a.c"] ["PkgA"] world_example) =
     fst (call_FilterPackagesToTest ["a.c"; "BaseTools/foo.c"; "a.c"] ["PkgA"] world_complete).
Proof.
  destruct (FilterPackagesToTest_monotone ["BaseTools/foo.c"; "a.c"]
              ["a.c"; "BaseTools/foo.c"; "a.c"] ["PkgA"] world_example world_complete)
    as [Hmono Hsame].
  - compute_done.
  - split.
    + apply Hmono. reflexivity.
    + apply Hsame. compute_done.
Defined.

(** *** GetRequiredSubmodules: what is logged *)

Lemma GetRequiredSubmodules_run w :
  SettingsManager.GetRequiredSubmodules w =
  (Ok required_submodules,
   set_log (fun l => l ++ flat_map (submodule_report (w_host w)) required_submodules) w).
Proof.
  unfold SettingsManager.GetRequiredSubmodules, SettingsManager.GetWorkspaceRoot.
  cbv zeta. fold required_submodules.
  cbv [bind get_host ret].
  rewrite (for_each_logs required_submodules _
             (submodule_report (w_host w)) (w_host w)); [reflexivity| |reflexivity].
  intros s w0 Hw0. unfold submodule_report. rewrite Hw0.
  destruct (exists_ (w_host w) _); cbn [negb];
    [destruct (exists_ (w_host w) _); cbn [negb]|];
    try reflexivity.
  cbv [ret]. by rewrite set_log_nil.
Qed.

Lemma submodule_report_length h s :
  length (submodule_report h s) = if submodule_present h s then 0 else 1.
Proof.
  unfold submodule_report, submodule_present.
  destruct (exists_ h _); cbn; [destruct (exists_ h _)|]; reflexivity.
Qed.

Lemma flat_map_report_length h (l : list RequiredSubmodule) :
  length (flat_map (submodule_report h) l) =
  length (filter (fun s => submodule_present h s = false) l).
Proof.
  induction l as [|s rest IH]; [reflexivity|].
  cbn [flat_map]. rewrite length_app, submodule_report_length, filter_cons.
  destruct (submodule_present h s); case_decide; try done; cbn; by rewrite IH.
Qed.

(** X7: The call adds one record to the log for each required submodule that
    is not checked out, and none for the others: the log is left as it was
    exactly when all eight are present with their [.git] entry. *)
Theorem GetRequiredSubmodules_log_count w :
  let log' := w_log (snd (SettingsManager.GetRequiredSubmodules w)) in
  length log' =
    length (w_log w) +
    length (filter (fun s => submodule_present (w_host w) s = false) required_submodules)
  /\ (log' = w_log w <->
      forallb (submodule_present (w_host w)) required_submodules = true).
Proof.
  cbv zeta. rewrite GetRequiredSubmodules_run. cbn [snd w_log set_log].
  split; [by rewrite length_app, flat_map_report_length|].
  split.
  - intros E. apply (f_equal length) in E.
    rewrite length_app, flat_map_report_length in E.
    apply forallb_forall. intros s Hs. apply list_elem_of_In in Hs.
    destruct (submodule_present (w_host w) s) eqn:Ep; [done|]. exfalso.
    assert (Hin : s ∈ filter (fun s => submodule_present (w_host w) s = false)
                        required_submodules)
      by (apply list_elem_of_filter; done).
    destruct (filter _ required_submodules); [by apply elem_of_nil in Hin|].
    cbn in E. lia.
  - intros Hall. rewrite forallb_forall in Hall.
    assert (E : forall l, (forall s, In s l -> submodule_present (w_host w) s = true) ->
                          flat_map (submodule_report (w_host w)) l = []).
    { induction l as [|s rest IH]; intros Hl; [reflexivity|].
      cbn [flat_map]. rewrite IH by (intros; apply Hl; by right).
      rewrite app_nil_r. apply length_zero_iff_nil.
      rewrite submodule_report_length, Hl; [done|by left]. }
    by rewrite E, app_nil_r.
Qed.

(** X8: A required submodule whose directory is missing is reported as
    missing; one whose directory exists without a [.git] entry is
    reported as not initialised. Both records name the path under the
    workspace root and are of level ERROR. *)
Theorem GetRequiredSubmodules_reports w s :
  s ∈ required_submodules ->
  submodule_present (w_host w) s = false ->
  let sub_path := OsPath.join (CommonPlatform.WorkspaceRoot (w_host w)) (path s) in
  {| levelname := ERROR;
     message := (if exists_ (w_host w) sub_path
                 then "Submodule not initialized: "
                 else "Submodule path missing: ") +:+ sub_path |}
  ∈ w_log (snd (SettingsManager.GetRequiredSubmodules w)).
Proof.
  intros Hs Hp sub_path. rewrite GetRequiredSubmodules_run. cbn [snd w_log set_log].
  apply elem_of_app. right.
  apply list_elem_of_In, in_flat_map. exists s. split; [by apply list_elem_of_In|].
  apply list_elem_of_In. unfold submodule_report, submodule_present in *. fold sub_path in Hp |- *.
  destruct (exists_ (w_host w) sub_path); cbn [negb andb] in *.
  - rewrite Hp. cbn. by left.
  - by left.
Qed.

Lemma GetRequiredSubmodules_reports_witness :
  {| levelname := ERROR;
     message := "Submodule path missing: /w/Platforms/EEBBK/Silicium-ACPI" |}
  ∈ w_log (snd (SettingsManager.GetRequiredSubmodules world_example)).
Proof.
  apply (GetRequiredSubmodules_reports world_example
           {| path := "Silicium-ACPI"; optional := true; recursive := true |}).
  - compute_done.
  - reflexivity.
Defined.

(** *** SetPlatformEnv: the variables it writes and the ones it keeps *)

Lemma SetPlatformEnv_present w :
  isfile (w_host w)
    (OsPath.join (CommonPlatform.WorkspaceRoot (w_host w)) "s6Pkg/s6.dsc") = true ->
  PlatformBuilder.SetPlatformEnv w =
  (Ok 0%Z,
   set_env (platform_env (GetValue_unset (w_host w)))
     (set_log (fun l => l ++ [ {| levelname := DEBUG;
                                  message := "PlatformBuilder SetPlatformEnv" |} ]) w)).
Proof.
  intros Hfile.
  cbv [PlatformBuilder.SetPlatformEnv PlatformBuilder.GetWorkspaceRoot bind get_host
       CommonPlatform.DscPath logging.debug logging.log modify ret].
  cbn [w_host set_log]. rewrite Hfile. cbn [negb].
  cbv [VarDict.SetValue VarDict.GetValue_no_default modify].
  cbn [w_env set_env set_log w_host w_log w_heap w_ActualArchitectures w_invoked].
  unfold platform_env.
  repeat (rewrite lookup_insert_ne by done). reflexivity.
Qed.

Lemma SetPlatformEnv_absent w :
  isfile (w_host w)
    (OsPath.join (CommonPlatform.WorkspaceRoot (w_host w)) "s6Pkg/s6.dsc") = false ->
  exists e records,
    PlatformBuilder.SetPlatformEnv w = (Raise e, set_log (fun l => l ++ records) w).
Proof.
  intros Hfile.
  cbv [PlatformBuilder.SetPlatformEnv PlatformBuilder.GetWorkspaceRoot bind get_host
       CommonPlatform.DscPath logging.debug logging.log modify ret].
  cbn [w_host set_log]. rewrite Hfile. cbn [negb].
  cbv [logging.critical logging.log modify raise ret bind lift].
  cbn [w_host set_log].
  destruct (exists_ (w_host w) (CommonPlatform.WorkspaceRoot (w_host w)));
    [destruct (listdir (w_host w) (CommonPlatform.WorkspaceRoot (w_host w)))|];
    try (eexists _, _; unfold set_log;
         cbn [w_log w_host w_heap w_env w_ActualArchitectures w_invoked];
         rewrite <- ?app_assoc; reflexivity);
    (destruct (exists_ (w_host w)
                 (OsPath.join (CommonPlatform.WorkspaceRoot (w_host w)) "s6Pkg"));
     [destruct (listdir (w_host w)
                  (OsPath.join (CommonPlatform.WorkspaceRoot (w_host w)) "s6Pkg"))|]);
    eexists _, _; unfold set_log;
    cbn [w_log w_host w_heap w_env w_ActualArchitectures w_invoked];
    rewrite <- ?app_assoc; reflexivity.
Qed.

Lemma platform_env_other u (e : gmap string pyval) k :
  k ∉ platform_variables -> platform_env u e !! k = e !! k.
Proof.
  unfold platform_variables. rewrite !not_elem_of_cons. intros H. destruct_and!.
  unfold platform_env. by rewrite !lookup_insert_ne by done.
Qed.

(** X9: The call writes the fifteen platform variables and nothing else:
    any other build variable, the list objects, the recorded
    architectures and the trace of invocations are as before, whether the
    call succeeds or raises. *)
Theorem SetPlatformEnv_frame w k :
  k ∉ platform_variables ->
  let w' := snd (PlatformBuilder.SetPlatformEnv w) in
  w_env w' !! k = w_env w !! k
  /\ w_heap w' = w_heap w
  /\ w_ActualArchitectures w' = w_ActualArchitectures w
  /\ w_invoked w' = w_invoked w
  /\ w_host w' = w_host w.
Proof.
  intros Hk.
  destruct (isfile (w_host w)
              (OsPath.join (CommonPlatform.WorkspaceRoot (w_host w)) "s6Pkg/s6.dsc")) eqn:E.
  - rewrite (SetPlatformEnv_present w E). cbn.
    by rewrite platform_env_other.
  - destruct (SetPlatformEnv_absent w E) as (e & records & ->). cbn. done.
Qed.

Lemma SetPlatformEnv_frame_witness :
  let w' := snd (PlatformBuilder.SetPlatformEnv world_complete) in
  w_env w' !! "FD_BASE" = w_env world_complete !! "FD_BASE"
  /\ w_heap w' = w_heap world_complete
  /\ w_ActualArchitectures w' = w_ActualArchitectures world_complete
  /\ w_invoked w' = w_invoked world_complete
  /\ w_host w' = w_host world_complete.
Proof. apply (SetPlatformEnv_frame world_complete "FD_BASE"). compute_done. Defined.

(** X10: The flash geometry is passed through: where FD_BASE, FD_SIZE or
    FD_BLOCKS holds a string before a successful call, BLD_*_FD_BASE,
    BLD_*_FD_SIZE or BLD_*_FD_BLOCKS holds the same string after it, and
    the three sources are unchanged. *)
Theorem SetPlatformEnv_flash_geometry w :
  fst (PlatformBuilder.SetPlatformEnv w) = Ok 0%Z ->
  let e := w_env w in
  let e' := w_env (snd (PlatformBuilder.SetPlatformEnv w)) in
  (forall s, e !! "FD_BASE" = Some (PyStr s) -> e' !! "BLD_*_FD_BASE" = Some (PyStr s))
  /\ (forall s, e !! "FD_SIZE" = Some (PyStr s) -> e' !! "BLD_*_FD_SIZE" = Some (PyStr s))
  /\ (forall s, e !! "FD_BLOCKS" = Some (PyStr s) ->
                e' !! "BLD_*_FD_BLOCKS" = Some (PyStr s))
  /\ e' !! "FD_BASE" = e !! "FD_BASE"
  /\ e' !! "FD_SIZE" = e !! "FD_SIZE"
  /\ e' !! "FD_BLOCKS" = e !! "FD_BLOCKS".
Proof.
  intros Hok.
  destruct (isfile (w_host w)
              (OsPath.join (CommonPlatform.WorkspaceRoot (w_host w)) "s6Pkg/s6.dsc")) eqn:E.
  - rewrite (SetPlatformEnv_present w E). cbn [snd w_env set_env set_log].
    rewrite (platform_env_other _ _ "FD_BASE"), (platform_env_other _ _ "FD_SIZE"),
      (platform_env_other _ _ "FD_BLOCKS") by compute_done.
    unfold platform_env.
    repeat split; try done; intros s Hs; rewrite Hs; by simplify_map_eq.
  - destruct (SetPlatformEnv_absent w E) as (e & records & H).
    rewrite H in Hok. discriminate.
Qed.

Lemma SetPlatformEnv_flash_geometry_witness :
  w_env (snd (PlatformBuilder.SetPlatformEnv world_complete)) !! "BLD_*_FD_BASE" =
  Some (PyStr "0x9FC00000").
Proof.
  destruct (SetPlatformEnv_flash_geometry world_complete) as (Hbase & _).
  - reflexivity.
  - apply Hbase. reflexivity.
Defined.

Lemma platform_env_idempotent u (e : gmap string pyval) :
  platform_env u (platform_env u e) = platform_env u e.
Proof.
  apply map_eq. intros k.
  destruct (decide (k ∈ platform_variables)) as [Hin|Hout].
  - unfold platform_variables in Hin.
    assert (Hb : platform_env u e !! "FD_BASE" = e !! "FD_BASE")
      by (apply platform_env_other; compute_done).
    assert (Hs : platform_env u e !! "FD_SIZE" = e !! "FD_SIZE")
      by (apply platform_env_other; compute_done).
    assert (Hl : platform_env u e !! "FD_BLOCKS" = e !! "FD_BLOCKS")
      by (apply platform_env_other; compute_done).
    unfold platform_env at 1. rewrite Hb, Hs, Hl. unfold platform_env.
    repeat (apply elem_of_cons in Hin as [->|Hin]; [by simplify_map_eq|]).
    by apply elem_of_nil in Hin.
  - by rewrite !platform_env_other.
Qed.

(** X11: Setting the platform environment twice gives the store that setting
    it once gives. *)
Theorem SetPlatformEnv_idempotent w :
  let w1 := snd (PlatformBuilder.SetPlatformEnv w) in
  w_env (snd (PlatformBuilder.SetPlatformEnv w1)) = w_env w1.
Proof.
  cbv zeta.
  destruct (isfile (w_host w)
              (OsPath.join (CommonPlatform.WorkspaceRoot (w_host w)) "s6Pkg/s6.dsc")) eqn:E.
  - rewrite (SetPlatformEnv_present w E). cbn [snd].
    rewrite SetPlatformEnv_present by exact E.
    cbn [snd w_env set_env set_log w_host]. apply platform_env_idempotent.
  - destruct (SetPlatformEnv_absent w E) as (e & records & ->). cbn [snd].
    destruct (SetPlatformEnv_absent (set_log (fun l => l ++ records) w) E)
      as (e' & records' & ->).
    reflexivity.
Qed.

(** X12: The settings manager and the builder test the same DSC path: one
    succeeds exactly when the other does, and then the builder's
    ACTIVE_PLATFORM is the DSC path the settings manager returns. *)
Theorem dsc_checks_agree w :
  match fst (SettingsManager.GetPlatformDscAndConfig w),
        fst (PlatformBuilder.SetPlatformEnv w) with
  | Ok (dsc, _), Ok _ =>
      w_env (snd (PlatformBuilder.SetPlatformEnv w)) !! "ACTIVE_PLATFORM" = Some (PyStr dsc)
  | Raise _, Raise _ => True
  | _, _ => False
  end.
Proof.
  destruct (isfile (w_host w)
              (OsPath.join (CommonPlatform.WorkspaceRoot (w_host w)) "s6Pkg/s6.dsc")) eqn:E.
  - rewrite (SetPlatformEnv_present w E).
    cbv [SettingsManager.GetPlatformDscAndConfig bind get_host CommonPlatform.DscPath].
    rewrite E. cbn. unfold platform_env. by simplify_map_eq.
  - destruct (SetPlatformEnv_absent w E) as (e & records & ->).
    cbv [SettingsManager.GetPlatformDscAndConfig bind get_host CommonPlatform.DscPath].
    rewrite E. cbn [negb].
    cbv [logging.error logging.log modify raise ret bind lift]. cbn [w_host set_log].
    destruct (exists_ (w_host w) _); [destruct (listdir (w_host w) _)|]; cbn; done.
Qed.

(** X13: Setting the platform environment does not change the package search
    path of the builder: FEATURE_CONFIG_PATH is not one of the variables
    it writes. *)
Theorem GetPackagesPath_after_SetPlatformEnv w :
  fst (PlatformBuilder.GetPackagesPath (snd (PlatformBuilder.SetPlatformEnv w))) =
  fst (PlatformBuilder.GetPackagesPath w).
Proof.
  cbv [PlatformBuilder.GetPackagesPath VarDict.GetValue bind ret py_iter
       CommonPlatform.PackagesPath].
  cbn [fst].
  destruct (isfile (w_host w)
              (OsPath.join (CommonPlatform.WorkspaceRoot (w_host w)) "s6Pkg/s6.dsc")) eqn:E.
  - rewrite (SetPlatformEnv_present w E). cbn [snd w_env set_env set_log].
    rewrite platform_env_other by compute_done. reflexivity.
  - destruct (SetPlatformEnv_absent w E) as (e & records & ->). reflexivity.
Qed.

(** *** The builder's architecture option: what is accepted *)

Lemma upper_length s : String.length (PyStr.upper s) = String.length s.
Proof. induction s as [|c s IH]; [reflexivity|]. cbn. by rewrite IH. Qed.

Lemma upper_ascii_comma c :
  (if ascii_dec ","%char (PyStr.upper_ascii c) then true else false) =
  (if ascii_dec ","%char c then true else false).
Proof. destruct c as [[] [] [] [] [] [] [] []]; reflexivity. Qed.

Lemma contains_comma_upper s :
  PyStr.contains "," (PyStr.upper s) = PyStr.contains "," s.
Proof.
  induction s as [|c s IH]; [reflexivity|].
  cbn [PyStr.upper PyStr.contains String.prefix]. rewrite IH.
  replace (String.prefix "" (PyStr.upper s)) with true by (by destruct (PyStr.upper s)).
  replace (String.prefix "" s) with true by (by destruct s).
  by rewrite upper_ascii_comma.
Qed.

(** X14: Only single architecture names are accepted: a value that passes
    has exactly seven characters and no comma, so a comma-separated list
    of architectures, which the help text of the option speaks of, is
    always rejected. *)
Theorem RetrieveCommandLineOptions_single_name build_arch w :
  fst (PlatformBuilder.RetrieveCommandLineOptions build_arch w) = Ok tt ->
  String.length build_arch = 7 /\ PyStr.contains "," build_arch = false.
Proof.
  unfold PlatformBuilder.RetrieveCommandLineOptions.
  destruct (String.eqb_spec (PyStr.upper build_arch) "AARCH64") as [E|_];
    [|discriminate].
  intros _. split.
  - by rewrite <- upper_length, E.
  - by rewrite <- contains_comma_upper, E.
Qed.

Lemma RetrieveCommandLineOptions_single_name_witness :
  String.length "AArch64" = 7 /\ PyStr.contains "," "AArch64" = false.
Proof.
  apply (RetrieveCommandLineOptions_single_name "AArch64" world_example). reflexivity.
Defined.

(** *** The entry point: parsing, dispatch and exit status *)

Lemma lookup_option_In table o f :
  argparse.lookup_option table o = Some f -> In f (map snd table).
Proof.
  unfold argparse.lookup_option. destruct (find _ table) as [p|] eqn:E; [|discriminate].
  intros [= <-]. apply find_some in E as [Hin _]. by apply in_map.
Qed.

Lemma get_option_tuples_In table a f e :
  In (f, e) (argparse.get_option_tuples table a) -> In f (map snd table).
Proof.
  unfold argparse.get_option_tuples.
  destruct a as [|c0 [|c1 rest]]; [intros []|intros []|].
  destruct (Ascii.eqb c1 "-").
  - destruct (match argparse.split_eq _ with Some (l, r) => _ | None => _ end)
      as [option_prefix explicit_arg].
    intros H. apply in_map_iff in H as (p & [= <- _] & Hp).
    apply in_map. apply list_elem_of_In in Hp. apply list_elem_of_filter in Hp as [_ Hp].
    by apply list_elem_of_In.
  - intros H. apply in_flat_map in H as (p & Hp & H).
    destruct (String.eqb _ _); [|destruct (PyStr.startswith _ _)];
      cbn in H; try (destruct H as [[= <- _]|[]]); try done; by apply in_map.
Qed.

Lemma parse_optional_In table a w f e w' :
  argparse.parse_optional table a w = (Ok (argparse.Optional f e), w') ->
  In f (map snd table).
Proof.
  unfold argparse.parse_optional, argparse.error, raise, ret.
  destruct a as [|c0 rest]; [discriminate|].
  destruct (negb _); [discriminate|].
  destruct (argparse.lookup_option table (String c0 rest)) as [g|] eqn:E1.
  { intros ?; simplify_eq. by apply lookup_option_In in E1. }
  destruct (_ =? 1)%nat; [discriminate|].
  destruct (argparse.split_eq (String c0 rest)) as [[o x]|] eqn:E2.
  - destruct (argparse.lookup_option table o) as [g|] eqn:E3;
      cbn [fmap option_fmap option_map].
    + intros ?; simplify_eq. by apply lookup_option_In in E3.
    + destruct (argparse.get_option_tuples table (String c0 rest)) as [|[g y] [|? ?]] eqn:E4;
        try discriminate.
      intros ?; simplify_eq. apply (get_option_tuples_In table (String c0 rest) f e).
      rewrite E4. apply in_eq.
  - destruct (argparse.get_option_tuples table (String c0 rest)) as [|[g y] [|? ?]] eqn:E4;
      try discriminate.
    intros ?; simplify_eq. apply (get_option_tuples_In table (String c0 rest) f e).
    rewrite E4. apply in_eq.
Qed.

Lemma option_string_actions_In group f :
  In f (map snd (argparse.option_string_actions group)) -> In f group.
Proof.
  unfold argparse.option_string_actions. intros H.
  apply in_map_iff in H as ([o g] & <- & H).
  apply in_flat_map in H as (a & Ha & H).
  apply in_map_iff in H as (o' & [= _ <-] & _). exact Ha.
Qed.

(** The first pass keeps the arguments in order and takes its flags
    from the table. *)
Lemma find_options_items table args w items :
  argparse.find_options table args w = (Ok items, w) ->
  map fst items = args
  /\ forall s f e, In (s, argparse.Optional f e) items -> In f (map snd table).
Proof.
  revert items. induction args as [|a rest IH]; intros items.
  - cbn. unfold ret. intros ?; simplify_eq. split; [reflexivity|intros ? ? ? []].
  - cbn [argparse.find_options]. destruct (String.eqb a "--").
    + unfold ret. intros ?; simplify_eq. split.
      * assert (H : forall l : list string,
                   map fst (map (fun s => (s, argparse.NotMine)) l) = l)
          by (induction l as [|? ? IHl]; cbn; [done|by rewrite IHl]).
        apply (H (a :: rest)).
      * intros s f e [[=]|H].
        apply in_map_iff in H as (? & [=] & _).
    + unfold bind.
      destruct (parse_optional_total table a w) as [[p Hp]|Hp]; rewrite Hp; [|discriminate].
      destruct (find_options_total table rest w) as [Hr|[items0 Hr]]; rewrite Hr;
        [discriminate|].
      unfold ret. intros ?; simplify_eq. destruct (IH items0 Hr) as [IH1 IH2].
      split; [cbn; by rewrite IH1|].
      intros s f e [H|H]; [simplify_eq; by eapply parse_optional_In|by eapply IH2].
Qed.

Lemma existsb_conflict_false group (seen : list argparse.Flag) action :
  existsb (fun c => bool_decide (c ≠ action) && bool_decide (c ∈ seen)) group = false ->
  forall c, In c group -> c ∈ seen -> c = action.
Proof.
  intros E c Hc Hs. destruct (decide (c = action)) as [|Hne]; [done|]. exfalso.
  apply not_true_iff_false in E. apply E. apply existsb_exists. exists c.
  split; [done|]. apply andb_true_iff. split; by apply bool_decide_eq_true.
Qed.

(** The second pass either ends in the error exit or returns flags of
    the group that are all the same flag, among them every flag that was
    given without an explicit argument, and leaves the other arguments
    over, in their order. *)
Lemma consume_spec group items seen extras w :
  (forall f, f ∈ seen -> In f group) ->
  (forall s f e, In (s, argparse.Optional f e) items -> In f group) ->
  (forall f g, f ∈ seen -> g ∈ seen -> f = g) ->
  argparse.consume group items seen extras w = (Raise (SystemExit 2), w)
  \/ exists seen' ex,
      argparse.consume group items seen extras w = (Ok (seen', extras ++ ex), w)
      /\ (forall f, f ∈ seen' -> In f group)
      /\ (forall f g, f ∈ seen' -> g ∈ seen' -> f = g)
      /\ (forall f, f ∈ seen -> f ∈ seen')
      /\ (forall s f, In (s, argparse.Optional f None) items -> f ∈ seen')
      /\ sublist ex (map fst items)
      /\ (Forall (fun i => snd i = argparse.NotMine) items ->
          ex = map fst items /\ seen' = seen).
Proof.
  revert seen extras.
  induction items as [|[t p] rest IH]; intros seen extras Hgroup Hitems Hexcl.
  - right. exists seen, []. cbn. rewrite app_nil_r.
    repeat split; try done; try (by intros ? ? []); by constructor.
  - destruct p as [|a [e|]]; cbn [argparse.consume].
    + destruct (IH seen (extras ++ [t]) Hgroup) as [->|(seen' & ex & -> & H1 & H2 & H3 & H4 & H5 & H6)];
        [intros s f e H; eapply Hitems; right; exact H | done | by left |].
      right. exists seen', (t :: ex). rewrite <- app_assoc. cbn.
      repeat split; try done.
      * intros s f [[=]|H]. by eapply H4.
      * by apply sublist_skip.
      * apply Forall_cons in H as [_ H]. destruct (H6 H) as [-> _]. reflexivity.
      * apply Forall_cons in H as [_ H]. by destruct (H6 H) as [_ ->].
    + by left.
    + destruct (existsb _ group) eqn:E; [by left|].
      pose proof (existsb_conflict_false group seen a E) as Hsame.
      assert (Ha : In a group) by (eapply Hitems; left; reflexivity).
      destruct (IH (seen ++ [a]) extras)
        as [->|(seen' & ex & -> & H1 & H2 & H3 & H4 & H5 & H6)]; [| | |by left|].
      * intros f Hf. apply elem_of_app in Hf as [Hf|Hf]; [by apply Hgroup|].
        apply list_elem_of_singleton in Hf as ->. done.
      * intros s f e H. eapply Hitems. right. exact H.
      * intros f g Hf Hg.
        assert (Hall : forall x, x ∈ seen ++ [a] -> x = a).
        { intros x Hx. apply elem_of_app in Hx as [Hx|Hx].
          - apply Hsame; [by apply Hgroup|done].
          - by apply list_elem_of_singleton in Hx. }
        by rewrite (Hall f Hf), (Hall g Hg).
      * right. exists seen', ex. repeat split; try done.
        -- intros f Hf. apply H3. apply elem_of_app. by left.
        -- intros s f [[= _ ->]|H]; [|by eapply H4].
           apply H3. apply elem_of_app. right. by apply list_elem_of_singleton.
        -- by apply sublist_cons.
        -- apply Forall_cons in H as [[=] _].
        -- apply Forall_cons in H as [[=] _].
Qed.

Lemma flag_given_true d (given : list argparse.Flag) :
  Main.flag_given d given = true <-> exists a, a ∈ given /\ argparse.dest a = d.
Proof.
  unfold Main.flag_given. rewrite existsb_exists. split.
  - intros (a & Ha & E). exists a. split; [by apply list_elem_of_In|by apply String.eqb_eq].
  - intros (a & Ha & E). exists a. split; [by apply list_elem_of_In|by apply String.eqb_eq].
Qed.




(** What [parse_known_args] returns for the parser of the entry point. *)
Lemma parse_known_args_spec argv w :
  argparse.parse_known_args Main.parse_group argv w = (Raise (SystemExit 2), w)
  \/ exists given remaining,
      argparse.parse_known_args Main.parse_group argv w = (Ok (given, remaining), w)
      /\ (forall f, f ∈ given -> In f Main.parse_group)
      /\ (forall f g, f ∈ given -> g ∈ given -> f = g)
      /\ sublist remaining argv
      /\ (forall pre post s f,
            argv = pre ++ post -> "--" ∉ pre -> s ∈ pre ->
            (forall w0, argparse.parse_optional
                          (argparse.option_string_actions Main.parse_group) s w0 =
                        (Ok (argparse.Optional f None), w0)) ->
            f ∈ given).
Proof.
  unfold argparse.parse_known_args.
  set (table := argparse.option_string_actions Main.parse_group).
  destruct (find_options_total table argv w) as [E|[items E]];
    [left; by apply bind_Raise|].
  rewrite (bind_Ok _ _ w items w) by exact E.
  destruct (find_options_items table argv w items E) as [Hfst Hflags].
  destruct (consume_spec Main.parse_group items [] [] w)
    as [->|(given & ex & -> & H1 & H2 & _ & H4 & H5 & H6)]; [| | |by left|].
  - intros f Hf. by apply elem_of_nil in Hf.
  - intros s f e H. by eapply option_string_actions_In, Hflags.
  - intros f g Hf. by apply elem_of_nil in Hf.
  - right. exists given, ex. cbn [app]. rewrite Hfst in H5.
    split; [reflexivity|]. split; [done|]. split; [done|]. split; [done|].
    intros pre post s f -> Hsep Hs Hparse.
    destruct (find_options_keeps table pre post w s f Hsep Hs Hparse)
      as [E'|[items' [E' Hin]]]; [rewrite E in E'; discriminate|].
    rewrite E in E'. injection E' as <-.
    eapply H4. apply list_elem_of_In. exact Hin.
Qed.

Lemma w_invoked_after_invocation x args w :
  w_invoked (after_invocation x args w) = w_invoked w ++ [(x, args)].
Proof. unfold after_invocation. by destruct (invocation x args w). Qed.

(** How the entry point goes on after a successful parse. *)
Lemma main_dispatch argv w given remaining :
  argparse.parse_known_args Main.parse_group argv w = (Ok (given, remaining), w) ->
  let args := ["stuart"; "-c"; relpath___file__ (w_host w)] ++ remaining in
  Main.main argv w =
  (exit_of (fst (invocation (mode_of given) args w)),
   after_invocation (mode_of given) args w).
Proof.
  intros Hparse args. unfold Main.main.
  rewrite (bind_Ok _ _ w (w_host w) w) by reflexivity.
  rewrite (bind_Ok _ _ w (given, remaining) w) by exact Hparse.
  change (["stuart"; "-c"; relpath___file__ (w_host w)] ++ remaining) with args.
  assert (Hrun : forall x msg,
    failure_message x = msg ->
    try_except_Exception (Main.invoke x args)
      (fun _ => bind (logging.exception msg) (fun _ => Main.sys_exit 1)) w =
    (exit_of (fst (invocation x args w)), after_invocation x args w)).
  { intros x msg <-.
    unfold try_except_Exception, Main.invoke, after_invocation, invocation, exit_of.
    change (store_of (set_invoked (fun t => t ++ [(x, args)]) w)) with (store_of w).
    cbn [w_host set_invoked].
    destruct (Invoke (w_host w) x args (store_of w)) as [[[]|e] st]; cbn [fst failure_log].
    - by rewrite set_log_nil.
    - destruct (is_Exception e); [reflexivity|by rewrite set_log_nil]. }
  unfold mode_of.
  destruct (Main.flag_given "setup" given);
    [|destruct (Main.flag_given "update" given)]; by apply Hrun.
Qed.

(** X15: The two mode flags never come out of the parse together, whatever
    the spelling or abbreviation they were given in: a command line is
    either refused with exit status 2 or selects one mode. *)
Theorem parse_known_args_exclusive argv w :
  match fst (argparse.parse_known_args Main.parse_group argv w) with
  | Ok (given, _) =>
      Main.flag_given "setup" given && Main.flag_given "update" given = false
  | Raise e => e = SystemExit 2
  end.
Proof.
  destruct (parse_known_args_spec argv w)
    as [->|(given & remaining & -> & _ & Hsame & _)]; [reflexivity|].
  cbn [fst].
  destruct (Main.flag_given "setup" given) eqn:Es; [|reflexivity].
  destruct (Main.flag_given "update" given) eqn:Eu; [|reflexivity].
  apply flag_given_true in Es as (a & Ha & Ea).
  apply flag_given_true in Eu as (b & Hb & Eb).
  rewrite (Hsame a b Ha Hb) in Ea. rewrite Ea in Eb. discriminate.
Qed.


(** X17: When the entry point has invoked an external entry point, it
    ends as that entry point ended, except that an exception becomes the
    exit status 1 and one ERROR record that names the mode is added after
    what the entry point logged. A return, an exit and an interrupt of
    the entry point pass through and add nothing to the log. The build
    variables are as the entry point left them. *)
Theorem main_exit_status argv w x args :
  w_invoked (snd (Main.main argv w)) = w_invoked w ++ [(x, args)] ->
  let r := fst (invocation x args w) in
  let s := snd (invocation x args w) in
  fst (Main.main argv w) = exit_of r
  /\ w_log (snd (Main.main argv w)) = s_log s ++ failure_log x r
  /\ w_env (snd (Main.main argv w)) = s_env s.
Proof.
  destruct (parse_known_args_spec argv w)
    as [E|(given & remaining & E & _)].
  - assert (Hmain : Main.main argv w = (Raise (SystemExit 2), w)).
    { unfold Main.main.
      rewrite (bind_Ok _ _ w (w_host w) w) by reflexivity. by apply bind_Raise. }
    rewrite Hmain. cbn [fst snd]. intros H. exfalso.
    apply (f_equal length) in H. rewrite length_app in H. cbn in H. lia.
  - rewrite (main_dispatch argv w given remaining E). cbn [fst snd].
    rewrite w_invoked_after_invocation. intros H.
    apply app_inv_head in H. injection H as Hx Hargs. subst x args.
    cbv zeta. unfold after_invocation. cbn [app].
    match goal with
    | |- context [invocation ?a ?b w] => destruct (invocation a b w) as [r s]
    end.
    cbn. done.
Qed.

Lemma main_exit_status_witness :
  fst (Main.main ["TARGET=RELEASE"] world_complete) = Raise (SystemExit 1)
  /\ w_log (snd (Main.main ["TARGET=RELEASE"] world_complete)) =
     [ {| levelname := INFO; message := "building" |} ] ++
     [ {| levelname := ERROR; message := "Build failed with exception" |} ].
Proof.
  destruct (main_exit_status ["TARGET=RELEASE"] world_complete Edk2PlatformBuild
              ["stuart"; "-c"; "Platforms/EEBBK/s6Pkg/DeviceBuild.py"; "TARGET=RELEASE"])
    as (Hexit & Hlog & _).
  - reflexivity.
  - split; [exact Hexit|exact Hlog].
Defined.





(** *** The workspace root *)

Lemma append_cons c a b : String c a +:+ b = String c (a +:+ b).
Proof. reflexivity. Qed.

Lemma append_nil b : "" +:+ b = b.
Proof. reflexivity. Qed.

Lemma append_assoc a b c : (a +:+ b) +:+ c = a +:+ b +:+ c.
Proof.
  induction a as [|x a IH]; [reflexivity|]. by rewrite !append_cons, IH.
Qed.

Lemma list_ascii_of_string_app a b :
  list_ascii_of_string (a +:+ b) = list_ascii_of_string a ++ list_ascii_of_string b.
Proof.
  induction a as [|c a IH]; [reflexivity|].
  rewrite append_cons. cbn [list_ascii_of_string]. rewrite IH. reflexivity.
Qed.

Lemma string_of_list_ascii_app l1 l2 :
  string_of_list_ascii (l1 ++ l2) = string_of_list_ascii l1 +:+ string_of_list_ascii l2.
Proof.
  induction l1 as [|c l1 IH]; [reflexivity|].
  cbn [app string_of_list_ascii]. by rewrite append_cons, IH.
Qed.

Lemma rev_append a b : PyStr.rev (a +:+ b) = PyStr.rev b +:+ PyStr.rev a.
Proof.
  unfold PyStr.rev.
  by rewrite list_ascii_of_string_app, rev_app_distr, string_of_list_ascii_app.
Qed.

Lemma rev_rev a : PyStr.rev (PyStr.rev a) = a.
Proof.
  unfold PyStr.rev.
  by rewrite list_ascii_of_string_of_list_ascii, rev_involutive,
    string_of_list_ascii_of_string.
Qed.

Lemma contains_slash_cons c s :
  PyStr.contains "/" (String c s) =
  (if ascii_dec "/" c then true else false) || PyStr.contains "/" s.
Proof.
  cbn [PyStr.contains String.prefix].
  destruct (ascii_dec "/" c); [|reflexivity]. by destruct s.
Qed.

Lemma contains_slash_In s :
  PyStr.contains "/" s = false <-> ~ In "/"%char (list_ascii_of_string s).
Proof.
  induction s as [|c s IH]; [cbn; tauto|].
  rewrite contains_slash_cons. cbn [list_ascii_of_string In].
  destruct (ascii_dec "/" c) as [<-|Hne]; cbn [orb].
  - split; [discriminate|]. intros H. destruct H. by left.
  - rewrite IH. split; [intros H [E|Hin]; [congruence|done] | intros H Hin; apply H; by right].
Qed.

Lemma contains_slash_rev s :
  PyStr.contains "/" s = false -> PyStr.contains "/" (PyStr.rev s) = false.
Proof.
  rewrite !contains_slash_In. unfold PyStr.rev.
  rewrite list_ascii_of_string_of_list_ascii. intros H Hin. apply H.
  by apply in_rev.
Qed.

Lemma rev_nonempty s : s ≠ "" -> PyStr.rev s ≠ "".
Proof.
  intros Hs E. apply Hs. rewrite <- (rev_rev s), E. reflexivity.
Qed.

(** A non-empty string without a slash does not start with one, whatever
    is appended to it. *)
Lemma prefix_slash_append s t :
  s ≠ "" -> PyStr.contains "/" s = false -> String.prefix "/" (s +:+ t) = false.
Proof.
  destruct s as [|c s]; [done|]. intros _. rewrite contains_slash_cons.
  rewrite append_cons. cbn [String.prefix].
  destruct (ascii_dec "/" c); [discriminate|reflexivity].
Qed.

Lemma rfind_from_append c s1 s2 i found :
  PyStr.rfind_from c (s1 +:+ s2) i found =
  PyStr.rfind_from c s2 (i + String.length s1) (PyStr.rfind_from c s1 i found).
Proof.
  revert i found. induction s1 as [|a s1 IH]; intros i found.
  - rewrite append_nil. cbn. by rewrite Nat.add_0_r.
  - rewrite append_cons. cbn [PyStr.rfind_from String.length]. rewrite IH.
    by rewrite Nat.add_succ_comm.
Qed.

Lemma rfind_from_absent s i found :
  PyStr.contains "/" s = false -> PyStr.rfind_from "/" s i found = found.
Proof.
  revert i found. induction s as [|a s IH]; intros i found; [reflexivity|].
  rewrite contains_slash_cons. cbn [PyStr.rfind_from].
  destruct (ascii_dec "/" a) as [|Hne]; [discriminate|]. cbn [orb]. intros H.
  rewrite IH by done.
  destruct (Ascii.eqb_spec a "/") as [->|_]; [done|reflexivity].
Qed.

Lemma take_append a s k :
  PyStr.take (String.length a + k) (a +:+ s) = a +:+ PyStr.take k s.
Proof.
  unfold PyStr.take. induction a as [|c a IH]; [reflexivity|].
  rewrite !append_cons. cbn [String.length Nat.add String.substring]. by rewrite IH.
Qed.

Lemma all_char_slash_prefix s :
  s ≠ "" -> PyStr.all_char "/" s = true -> String.prefix "/" s = true.
Proof.
  destruct s as [|c s]; [done|]. intros _. cbn [PyStr.all_char String.prefix].
  destruct (Ascii.eqb_spec c "/") as [->|_]; [|discriminate].
  intros _. destruct (ascii_dec "/" "/"); [by destruct s|done].
Qed.

Lemma all_char_rev s : PyStr.all_char "/" s = true -> PyStr.all_char "/" (PyStr.rev s) = true.
Proof.
  assert (H : forall t, PyStr.all_char "/" t = true <->
                        forall c, In c (list_ascii_of_string t) -> c = "/"%char).
  { induction t as [|a t IH]; [cbn; split; [intros _ ? []|done]|].
    cbn [PyStr.all_char list_ascii_of_string In]. rewrite andb_true_iff, IH.
    split.
    - intros [Ha Ht] c [<-|Hc]; [by apply Ascii.eqb_eq|by apply Ht].
    - intros Hall. split; [apply Ascii.eqb_eq, Hall; by left|].
      intros c Hc. apply Hall. by right. }
  rewrite !H. unfold PyStr.rev. rewrite list_ascii_of_string_of_list_ascii.
  intros Hall c Hc. apply Hall. by apply in_rev.
Qed.

Lemma all_char_append_l s t :
  PyStr.all_char "/" (s +:+ t) = true -> PyStr.all_char "/" s = true.
Proof.
  induction s as [|a s IH]; [reflexivity|].
  rewrite append_cons. cbn [PyStr.all_char]. rewrite !andb_true_iff. intros [Ha H]. auto.
Qed.

Lemma lstrip_no_prefix s : String.prefix "/" s = false -> PyStr.lstrip "/" s = s.
Proof.
  destruct s as [|c s]; [reflexivity|]. cbn [String.prefix PyStr.lstrip].
  destruct (Ascii.eqb_spec c "/") as [->|_]; [|reflexivity].
  destruct (ascii_dec "/" "/"); [by destruct s|done].
Qed.

(** The directory part of [D/name]: for a directory [D] that is not
    empty and does not end with a slash, and a name without a slash,
    [dirname] gives [D] back. *)
Lemma dirname_parent D name :
  D ≠ "" -> String.prefix "/" (PyStr.rev D) = false ->
  PyStr.contains "/" name = false ->
  OsPath.dirname (D +:+ "/" +:+ name) = D.
Proof.
  intros HD Hlast Hname. unfold OsPath.dirname, PyStr.rfind, OsPath.sep.
  rewrite rfind_from_append. rewrite append_cons, append_nil. cbn [PyStr.rfind_from].
  rewrite Ascii.eqb_refl, rfind_from_absent by done.
  replace (Z.to_nat (Z.of_nat (0 + String.length D) + 1))
    with (String.length D + 1) by lia.
  rewrite take_append. cbn [PyStr.take String.substring].
  replace (String.substring 0 0 name) with "" by (by destruct name).
  assert (Hne : String.eqb (D +:+ "/") "" = false) by (by destruct D).
  assert (Hall : PyStr.all_char "/" (D +:+ "/") = false).
  { apply not_true_iff_false. intros H. apply all_char_append_l in H.
    apply all_char_rev in H. apply all_char_slash_prefix in H; [congruence|].
    by apply rev_nonempty. }
  rewrite Hne, Hall. cbn [negb andb].
  unfold PyStr.rstrip. rewrite rev_append.
  change (PyStr.rev "/") with "/". rewrite append_cons, append_nil. cbn [PyStr.lstrip].
  rewrite Ascii.eqb_refl, lstrip_no_prefix by done. apply rev_rev.
Qed.

(** X20: The workspace root is the directory two levels above the script:
    for a script at [W/d/name] it is [W], whatever the directory [d] of
    the script is called, and the DSC file is looked for at
    [W/s6Pkg/s6.dsc]. *)
Theorem WorkspaceRoot_two_levels_up h W d name :
  abspath___file__ h = W +:+ "/" +:+ d +:+ "/" +:+ name ->
  W ≠ "" -> PyStr.endswith "/" W = false ->
  d ≠ "" -> PyStr.contains "/" d = false ->
  PyStr.contains "/" name = false ->
  CommonPlatform.WorkspaceRoot h = W
  /\ OsPath.join (CommonPlatform.WorkspaceRoot h) CommonPlatform.DscPath =
     W +:+ "/s6Pkg/s6.dsc".
Proof.
  intros Hpath HW Hend Hd Hdslash Hname.
  assert (Hroot : CommonPlatform.WorkspaceRoot h = W).
  { unfold CommonPlatform.WorkspaceRoot. rewrite Hpath.
    replace (W +:+ "/" +:+ d +:+ "/" +:+ name)
      with ((W +:+ "/" +:+ d) +:+ "/" +:+ name)
      by (by rewrite !append_assoc).
    rewrite dirname_parent; [by apply dirname_parent| |  |done].
    - by destruct W.
    - replace (W +:+ "/" +:+ d) with ((W +:+ "/") +:+ d)
        by (by rewrite !append_assoc).
      rewrite rev_append. apply prefix_slash_append;
        [by apply rev_nonempty|by apply contains_slash_rev]. }
  split; [exact Hroot|]. rewrite Hroot.
  unfold OsPath.join, CommonPlatform.DscPath. cbn [PyStr.startswith String.prefix].
  destruct (ascii_dec "/" "s"); [discriminate|].
  rewrite Hend. replace (String.eqb W "") with false by (by destruct W).
  reflexivity.
Qed.

Lemma WorkspaceRoot_two_levels_up_witness :
  CommonPlatform.WorkspaceRoot host_example = "/w/Platforms/EEBBK"
  /\ OsPath.join (CommonPlatform.WorkspaceRoot host_example) CommonPlatform.DscPath =
     "/w/Platforms/EEBBK" +:+ "/s6Pkg/s6.dsc".
Proof.
  apply (WorkspaceRoot_two_levels_up host_example "/w/Platforms/EEBBK" "s6Pkg"
           "DeviceBuild.py"); try reflexivity; discriminate.
Defined.
